(** * Gym session service: sessions, reservations and the REST gateway

    A shallow embedding of the scheduling core of the gym platform:

    - the gateway's [handleGrpcError] (api-gateway/src/routes/session.routes.js),
    - the relational schema created by [initDatabase] and the [CreateSession]
      handler of the Go session service,
    - the reservation operations, whose handlers are not part of the
      sources at hand and are modelled from the specification on top of the
      schema that [initDatabase] creates,
    - the [GetSession] handler and [formatTimestamp] of the session
      service, and the gateway's router, its [verifyToken] and the two
      paths that the application mounts the router on.

    A handler is a function from the store (the two tables and their
    sequences) and the time of the call to the new store and a result.
    Every handler runs as one transaction, so that a concurrent execution
    is an interleaving of whole calls: a list of operations. *)

From Stdlib Require Import ZArith List String Ascii Bool Lia DecimalString.
From Stdlib Require DecimalZ DecimalPos.
Import ListNotations.
Open Scope string_scope.
Open Scope Z_scope.

(* ===================================================================== *)
(** * gRPC status codes *)
(* ===================================================================== *)

Module codes.

(** [google.golang.org/grpc/codes], which is also [grpc.status] of
    [@grpc/grpc-js]. *)
Inductive Code : Set :=
| OK | Canceled | Unknown | InvalidArgument | DeadlineExceeded
| NotFound | AlreadyExists | PermissionDenied | ResourceExhausted
| FailedPrecondition | Aborted | OutOfRange | Unimplemented
| Internal | Unavailable | DataLoss | Unauthenticated.

(** The number that travels on the wire and that [err.code] holds. *)
Definition number (c : Code) : Z :=
  match c with
  | OK => 0 | Canceled => 1 | Unknown => 2 | InvalidArgument => 3
  | DeadlineExceeded => 4 | NotFound => 5 | AlreadyExists => 6
  | PermissionDenied => 7 | ResourceExhausted => 8
  | FailedPrecondition => 9 | Aborted => 10 | OutOfRange => 11
  | Unimplemented => 12 | Internal => 13 | Unavailable => 14
  | DataLoss => 15 | Unauthenticated => 16
  end.

Definition eq_dec (a b : Code) : {a = b} + {a <> b}.
Proof. decide equality. Defined.

End codes.
Export codes (Code).

(** The outcome of an RPC: a reply, or a status with an error code.  The
    message text of a status is not modelled. *)
Inductive Result (A : Type) : Type :=
| Ok (a : A)
| Err (c : Code).
Arguments Ok {A} a.
Arguments Err {A} c.

Definition is_ok {A} (r : Result A) : bool :=
  match r with Ok _ => true | Err _ => false end.

(* ===================================================================== *)
(** * The gateway: session.routes.js *)
(* ===================================================================== *)

Module gateway.

(** What [res.status(n).json({ message })] sends. *)
Record Response := { status : Z; message : string }.

(** [handleGrpcError(err, res)], as a function of [err.code]. *)
Definition handleGrpcError (err_code : Z) : Response :=
  if err_code =? codes.number codes.NotFound then
    {| status := 404; message := "Resource not found" |}
  else if err_code =? codes.number codes.AlreadyExists then
    {| status := 409; message := "Resource already exists" |}
  else if err_code =? codes.number codes.PermissionDenied then
    {| status := 403; message := "Permission denied" |}
  else
    {| status := 500; message := "Internal server error" |}.

(** The callback of every route: [if (err) return handleGrpcError(err, res);]
    and only then the success reply with the route's own status. *)
Definition reply {A} (success : Z) (r : Result A) : Z :=
  match r with
  | Err c => status (handleGrpcError (codes.number c))
  | Ok _ => success
  end.

End gateway.

(* ===================================================================== *)
(** * Text and time *)
(* ===================================================================== *)

(** Go strings and PostgreSQL text are UTF-8 byte sequences; a character is
    a lead byte followed by its continuation bytes ([10xxxxxx]). *)
Definition utf8_continuation (c : ascii) : bool :=
  let n := Z.of_N (N_of_ascii c) in (128 <=? n) && (n <? 192).

Fixpoint char_length (s : string) : nat :=
  match s with
  | EmptyString => O
  | String c r => ((if utf8_continuation c then 0 else 1) + char_length r)%nat
  end.

(** The first [n] characters of [s]. *)
Fixpoint left_chars (n : nat) (s : string) : string :=
  match s with
  | EmptyString => EmptyString
  | String c r =>
      if utf8_continuation c then String c (left_chars n r)
      else match n with
           | O => EmptyString
           | S m => String c (left_chars m r)
           end
  end.

(** What follows the first [n] characters of [s]. *)
Fixpoint drop_chars (n : nat) (s : string) : string :=
  match s with
  | EmptyString => EmptyString
  | String c r =>
      if utf8_continuation c then drop_chars n r
      else match n with
           | O => s
           | S m => drop_chars m r
           end
  end.

Fixpoint all_spaces (s : string) : bool :=
  match s with
  | EmptyString => true
  | String c r => Ascii.eqb c " "%char && all_spaces r
  end.

Fixpoint has_nul (s : string) : bool :=
  match s with
  | EmptyString => false
  | String c r => Ascii.eqb c Ascii.zero || has_nul r
  end.

(** Assignment to a [VARCHAR(n)] column: a value of at most [n] characters
    is stored as it is, a longer one is cut to [n] characters when only
    spaces are lost, and is refused otherwise. *)
Definition varchar (n : nat) (s : string) : option string :=
  if (char_length s <=? n)%nat then Some s
  else if all_spaces (drop_chars n s) then Some (left_chars n s)
  else None.

(** [fmt.Sprint] of an integer. *)
Definition Sprint (z : Z) : string := NilZero.string_of_int (Z.to_int z).

(** Timestamps are microseconds since 1970-01-01 00:00:00. *)
Definition usec_per_sec : Z := 1000000.
Definition sec_per_day : Z := 86400.

(** The proleptic Gregorian date of a day number (day 0 is 1970-01-01). *)
Definition civil_from_days (days : Z) : Z * Z * Z :=
  let z := days + 719468 in
  let era := z / 146097 in
  let doe := z - era * 146097 in
  let yoe := (doe - doe / 1460 + doe / 36524 - doe / 146096) / 365 in
  let doy := doe - (365 * yoe + yoe / 4 - yoe / 100) in
  let mp := (5 * doy + 2) / 153 in
  let d := doy - (153 * mp + 2) / 5 + 1 in
  let m := if mp <? 10 then mp + 3 else mp - 9 in
  let y := yoe + era * 400 in
  (if m <=? 2 then y + 1 else y, m, d).

Definition days_from_civil (y m d : Z) : Z :=
  let y := if m <=? 2 then y - 1 else y in
  let era := y / 400 in
  let yoe := y - era * 400 in
  let doy := (153 * (if 2 <? m then m - 3 else m + 9) + 2) / 5 + d - 1 in
  let doe := yoe * 365 + yoe / 4 - yoe / 100 + doy in
  era * 146097 + doe - 719468.

(** A number in at least [w] decimal digits. *)
Definition pad (w : nat) (n : Z) : string :=
  let s := Sprint n in
  (string_of_list_ascii (repeat "0"%char (w - String.length s)) ++ s)%string.

(** [formatTimestamp]: [t.Format(time.RFC3339)] of a time read from a
    [TIMESTAMP] column, which is in UTC; the layout has no fraction of a
    second. *)
Definition formatTimestamp (t : Z) : string :=
  let secs := t / usec_per_sec in
  let '(y, m, d) := civil_from_days (secs / sec_per_day) in
  let sod := secs mod sec_per_day in
  (pad 4 y ++ "-" ++ pad 2 m ++ "-" ++ pad 2 d ++ "T" ++
   pad 2 (sod / 3600) ++ ":" ++ pad 2 (sod mod 3600 / 60) ++ ":" ++
   pad 2 (sod mod 60) ++ "Z")%string.

(** ** Timestamp input

    The store converts the text of a [TIMESTAMP] parameter itself, knowing
    the time of the transaction (for inputs such as [now]).  The service
    hands the request's strings over unread, so the development takes the
    conversion as a parameter; [iso8601_in] is the part of it that the
    service's own examples use, [YYYY-MM-DD], [T] or a space, [HH:MM:SS] and
    an optional [Z], and serves to run the handlers on concrete requests. *)

Definition digit (c : ascii) : option Z :=
  let n := Z.of_N (N_of_ascii c) in
  if (48 <=? n) && (n <=? 57) then Some (n - 48) else None.

Fixpoint number_of (ds : list ascii) (acc : Z) : option Z :=
  match ds with
  | [] => Some acc
  | c :: r => match digit c with
              | Some d => number_of r (10 * acc + d)
              | None => None
              end
  end.

Definition leap_year (y : Z) : bool :=
  ((y mod 4 =? 0) && negb (y mod 100 =? 0)) || (y mod 400 =? 0).

Definition days_in_month (y m : Z) : Z :=
  if m =? 2 then (if leap_year y then 29 else 28)
  else if (m =? 4) || (m =? 6) || (m =? 9) || (m =? 11) then 30
  else 31.

Definition civil_time (y m d hh mm ss : Z) : option Z :=
  if (1 <=? y) && (1 <=? m) && (m <=? 12) && (1 <=? d)
     && (d <=? days_in_month y m) && (hh <=? 23) && (mm <=? 59) && (ss <=? 59)
  then Some ((days_from_civil y m d * sec_per_day + hh * 3600 + mm * 60 + ss)
             * usec_per_sec)
  else None.

Definition iso8601_in (now : Z) (s : string) : option Z :=
  match list_ascii_of_string s with
  | y1 :: y2 :: y3 :: y4 :: "-"%char :: m1 :: m2 :: "-"%char :: d1 :: d2 ::
    sep :: h1 :: h2 :: ":"%char :: n1 :: n2 :: ":"%char :: s1 :: s2 :: rest =>
      if (Ascii.eqb sep "T" || Ascii.eqb sep " ")
         && match rest with [] => true | ["Z"%char] => true | _ => false end
      then
        match number_of [y1; y2; y3; y4] 0, number_of [m1; m2] 0,
              number_of [d1; d2] 0, number_of [h1; h2] 0,
              number_of [n1; n2] 0, number_of [s1; s2] 0 with
        | Some y, Some m, Some d, Some hh, Some mm, Some ss =>
            civil_time y m d hh mm ss
        | _, _, _, _, _, _ => None
        end
      else None
  | _ => None
  end.

(* ===================================================================== *)
(** * The store: the schema of [initDatabase] *)
(* ===================================================================== *)

(** A row of [sessions]. *)
Record SessionRow := {
  s_id : Z;                      (* SERIAL PRIMARY KEY *)
  s_title : string;              (* VARCHAR(255) NOT NULL *)
  s_description : string;        (* TEXT *)
  s_coach_id : string;           (* VARCHAR(100) NOT NULL *)
  s_coach_name : string;         (* VARCHAR(255) NOT NULL *)
  s_capacity : Z;                (* INT NOT NULL *)
  s_reserved_spots : Z;          (* INT DEFAULT 0 *)
  s_start_time : Z;              (* TIMESTAMP NOT NULL *)
  s_end_time : Z;                (* TIMESTAMP NOT NULL *)
  s_location : string;           (* VARCHAR(255) NOT NULL *)
  s_session_type : string;       (* VARCHAR(100) NOT NULL *)
  s_difficulty_level : string;   (* VARCHAR(50) NOT NULL *)
  s_is_cancelled : bool;         (* BOOLEAN DEFAULT FALSE *)
  s_created_at : Z;              (* TIMESTAMP DEFAULT CURRENT_TIMESTAMP *)
  s_updated_at : Z               (* TIMESTAMP DEFAULT CURRENT_TIMESTAMP *)
}.

(** The two values of [reservations.status]; the column's default is
    ['confirmed']. *)
Inductive Status : Set := confirmed | cancelled.

Definition status_text (s : Status) : string :=
  match s with confirmed => "confirmed" | cancelled => "cancelled" end.

Definition is_confirmed (s : Status) : bool :=
  match s with confirmed => true | cancelled => false end.

(** A row of [reservations]. *)
Record ReservationRow := {
  r_id : Z;                      (* SERIAL PRIMARY KEY *)
  r_session_id : Z;              (* INT NOT NULL REFERENCES sessions(id)
                                    ON DELETE CASCADE *)
  r_user_id : string;            (* VARCHAR(100) NOT NULL *)
  r_user_name : string;          (* VARCHAR(255) NOT NULL *)
  r_reservation_time : Z;        (* TIMESTAMP DEFAULT CURRENT_TIMESTAMP *)
  r_status : Status;             (* VARCHAR(50) DEFAULT 'confirmed' *)
  r_created_at : Z;
  r_updated_at : Z
  (* UNIQUE(session_id, user_id) *)
}.

(** The database: both tables and the sequences behind their [SERIAL]
    columns.  The order of the rows of a table has no meaning. *)
Record Store := {
  sessions : list SessionRow;
  sessions_id_seq : Z;
  reservations : list ReservationRow;
  reservations_id_seq : Z
}.

Definition empty_store : Store :=
  {| sessions := []; sessions_id_seq := 0;
     reservations := []; reservations_id_seq := 0 |}.

(** [initDatabase]: both statements are [CREATE TABLE IF NOT EXISTS], so a
    database that has the tables is left alone. *)
Definition initDatabase (db : option Store) : Store :=
  match db with
  | None => empty_store
  | Some st => st
  end.

(** The ways in which the store refuses a statement. *)
Inductive PgError : Set :=
| invalid_parameter               (* a parameter that is not of its type *)
| string_data_right_truncation    (* value too long for VARCHAR(n) *)
| unique_violation
| foreign_key_violation.

Definition find_session (id : Z) (st : Store) : option SessionRow :=
  find (fun s => s_id s =? id) (sessions st).

Definition find_reservation (id : Z) (st : Store) : option ReservationRow :=
  find (fun r => r_id r =? id) (reservations st).

(** The rows that [UNIQUE(session_id, user_id)] compares a new row with:
    every row of the pair, whatever its status. *)
Definition same_pair (session_id : Z) (user_id : string)
    (r : ReservationRow) : bool :=
  (r_session_id r =? session_id) && String.eqb (r_user_id r) user_id.

Definition pair_taken (session_id : Z) (user_id : string) (st : Store) : bool :=
  existsb (same_pair session_id user_id) (reservations st).

(** [SELECT count( * ) FROM reservations WHERE session_id = .. AND status =
    'confirmed']: the active reservations of a session. *)
Definition active (session_id : Z) (r : ReservationRow) : bool :=
  (r_session_id r =? session_id) && is_confirmed (r_status r).

Definition active_count (session_id : Z) (st : Store) : Z :=
  Z.of_nat (List.length (filter (active session_id) (reservations st))).

Definition active_for (session_id : Z) (user_id : string)
    (r : ReservationRow) : bool :=
  same_pair session_id user_id r && is_confirmed (r_status r).

(** Row updates. *)
Definition set_reserved_spots (n : Z) (s : SessionRow) : SessionRow :=
  {| s_id := s_id s; s_title := s_title s; s_description := s_description s;
     s_coach_id := s_coach_id s; s_coach_name := s_coach_name s;
     s_capacity := s_capacity s; s_reserved_spots := n;
     s_start_time := s_start_time s; s_end_time := s_end_time s;
     s_location := s_location s; s_session_type := s_session_type s;
     s_difficulty_level := s_difficulty_level s;
     s_is_cancelled := s_is_cancelled s;
     s_created_at := s_created_at s; s_updated_at := s_updated_at s |}.

Definition set_status (c : Status) (now : Z) (r : ReservationRow)
    : ReservationRow :=
  {| r_id := r_id r; r_session_id := r_session_id r;
     r_user_id := r_user_id r; r_user_name := r_user_name r;
     r_reservation_time := r_reservation_time r; r_status := c;
     r_created_at := r_created_at r; r_updated_at := now |}.

(** The rows that [WHERE id = $1] selects are changed, the others kept. *)
Definition at_key {A : Type} (key : A -> Z) (id : Z) (f : A -> A) (x : A) : A :=
  if key x =? id then f x else x.

(** [UPDATE sessions SET .. WHERE id = $1]. *)
Definition update_session (id : Z) (f : SessionRow -> SessionRow)
    (st : Store) : Store :=
  {| sessions := map (at_key s_id id f) (sessions st);
     sessions_id_seq := sessions_id_seq st;
     reservations := reservations st;
     reservations_id_seq := reservations_id_seq st |}.

(** [UPDATE reservations SET .. WHERE id = $1]. *)
Definition update_reservation (id : Z) (f : ReservationRow -> ReservationRow)
    (st : Store) : Store :=
  {| sessions := sessions st;
     sessions_id_seq := sessions_id_seq st;
     reservations := map (at_key r_id id f) (reservations st);
     reservations_id_seq := reservations_id_seq st |}.

(** [DELETE FROM sessions WHERE id = $1], with the cascade of
    [reservations.session_id]. *)
Definition delete_session (id : Z) (st : Store) : Store :=
  {| sessions := filter (fun s => negb (s_id s =? id)) (sessions st);
     sessions_id_seq := sessions_id_seq st;
     reservations :=
       filter (fun r => negb (r_session_id r =? id)) (reservations st);
     reservations_id_seq := reservations_id_seq st |}.

(** The range of an [INT] column. *)
Definition int4 (n : Z) : option Z :=
  if (-2147483648 <=? n) && (n <=? 2147483647) then Some n else None.

(** The messages of session.proto that [CreateSession] reads and writes. *)
Module pb.

Record CreateSessionRequest := {
  Title : string;
  Description : string;
  CoachId : string;
  Capacity : Z;                (* int32 *)
  StartTime : string;
  EndTime : string;
  Location : string;
  SessionType : string;
  DifficultyLevel : string
}.

Module Session.
Record t := {
  Id : string;
  Title : string;
  Description : string;
  CoachId : string;
  CoachName : string;
  Capacity : Z;
  ReservedSpots : Z;
  StartTime : string;
  EndTime : string;
  Location : string;
  SessionType : string;
  DifficultyLevel : string;
  IsCancelled : bool;
  CreatedAt : string;
  UpdatedAt : string
}.
End Session.

End pb.

(* ===================================================================== *)
(** * The session service *)
(* ===================================================================== *)

Section SessionService.

(** The store's conversion of the text of a [TIMESTAMP] parameter, given
    the time of the transaction. *)
Variable timestamp_in : Z -> string -> option Z.

(** ** [sessions] *)

(** The parameters of a statement are converted when they are bound,
    before the statement runs: an integer is in the range of [INT], a
    timestamp is well formed, and text, of which this is the check, holds
    no zero byte. *)
Definition bind_text (params : list string) : bool :=
  negb (existsb has_nul params).

(** [INSERT INTO sessions (title, description, coach_id, coach_name,
    capacity, start_time, end_time, location, session_type,
    difficulty_level) VALUES ($1, .., $10) RETURNING id, created_at,
    updated_at].  The remaining columns take their defaults.  A value of
    the sequence is drawn when the row is formed and is not given back
    when a column then refuses its value (the sequences themselves are
    taken to be unbounded). *)
Definition insert_session (st : Store) (now : Z)
    (title description coach_id coach_name : string) (capacity : Z)
    (start_time end_time location session_type difficulty_level : string)
  : Store * (PgError + SessionRow) :=
  if bind_text [title; description; coach_id; coach_name; start_time;
                end_time; location; session_type; difficulty_level]
  then
    match int4 capacity, timestamp_in now start_time,
          timestamp_in now end_time with
    | Some capacity', Some t0, Some t1 =>
        let id := sessions_id_seq st + 1 in
        match varchar 255 title, varchar 100 coach_id,
              varchar 255 coach_name, varchar 255 location,
              varchar 100 session_type, varchar 50 difficulty_level with
        | Some title', Some coach_id', Some coach_name',
          Some location', Some session_type', Some difficulty_level' =>
            let row :=
              {| s_id := id; s_title := title';
                 s_description := description;
                 s_coach_id := coach_id'; s_coach_name := coach_name';
                 s_capacity := capacity'; s_reserved_spots := 0;
                 s_start_time := t0; s_end_time := t1;
                 s_location := location';
                 s_session_type := session_type';
                 s_difficulty_level := difficulty_level';
                 s_is_cancelled := false;
                 s_created_at := now; s_updated_at := now |} in
            ({| sessions := row :: sessions st;
                sessions_id_seq := id;
                reservations := reservations st;
                reservations_id_seq := reservations_id_seq st |},
             inr row)
        | _, _, _, _, _, _ =>
            ({| sessions := sessions st;
                sessions_id_seq := id;
                reservations := reservations st;
                reservations_id_seq := reservations_id_seq st |},
             inl string_data_right_truncation)
        end
    | _, _, _ => (st, inl invalid_parameter)
    end
  else (st, inl invalid_parameter).

(** [CreateSession]: the validation, the insertion and the reply. *)
Definition CreateSession (st : Store) (now : Z)
    (req : pb.CreateSessionRequest) : Store * Result pb.Session.t :=
  (* Validate request *)
  if String.eqb (pb.Title req) "" || String.eqb (pb.CoachId req) ""
     || (pb.Capacity req <? 1)
     || String.eqb (pb.StartTime req) "" || String.eqb (pb.EndTime req) ""
     || String.eqb (pb.Location req) ""
     || String.eqb (pb.SessionType req) ""
     || String.eqb (pb.DifficultyLevel req) ""
  then (st, Err codes.InvalidArgument)
  else
    (* Insert new session into database *)
    match insert_session st now (pb.Title req) (pb.Description req)
            (pb.CoachId req) "Coach Name" (pb.Capacity req)
            (pb.StartTime req) (pb.EndTime req) (pb.Location req)
            (pb.SessionType req) (pb.DifficultyLevel req) with
    | (st', inl _) => (st', Err codes.Internal)
    | (st', inr row) =>
        (* Construct response *)
        (st',
         Ok {| pb.Session.Id := Sprint (s_id row);
               pb.Session.Title := pb.Title req;
               pb.Session.Description := pb.Description req;
               pb.Session.CoachId := pb.CoachId req;
               pb.Session.CoachName := "Coach Name";
               pb.Session.Capacity := pb.Capacity req;
               pb.Session.ReservedSpots := 0;
               pb.Session.StartTime := pb.StartTime req;
               pb.Session.EndTime := pb.EndTime req;
               pb.Session.Location := pb.Location req;
               pb.Session.SessionType := pb.SessionType req;
               pb.Session.DifficultyLevel := pb.DifficultyLevel req;
               pb.Session.IsCancelled := false;
               pb.Session.CreatedAt := formatTimestamp (s_created_at row);
               pb.Session.UpdatedAt := formatTimestamp (s_updated_at row) |})
    end.

(** ** [reservations] *)

(** The insertion of a row into [reservations], as the table that
    [initDatabase] creates takes it: [INSERT INTO reservations (session_id,
    user_id, user_name) VALUES ($1, $2, $3) RETURNING ..] gives the three
    columns that have no default; the new row is confirmed and stamped with
    the time of the transaction.  The unique index on (session_id, user_id)
    is probed when the row is stored, the reference to [sessions] is
    checked at the end of the statement.  [session_id] is an id of the
    store's own, an [INT]. *)
Definition insert_reservation (st : Store) (now : Z) (session_id : Z)
    (user_id user_name : string) : Store * (PgError + ReservationRow) :=
  if bind_text [user_id; user_name] then
    let id := reservations_id_seq st + 1 in
    let refused (e : PgError) :=
      ({| sessions := sessions st;
          sessions_id_seq := sessions_id_seq st;
          reservations := reservations st;
          reservations_id_seq := id |}, inl e) in
    match varchar 100 user_id, varchar 255 user_name with
    | Some user_id', Some user_name' =>
        if pair_taken session_id user_id' st then refused unique_violation
        else
          match find_session session_id st with
          | None => refused foreign_key_violation
          | Some _ =>
              let row :=
                {| r_id := id; r_session_id := session_id;
                   r_user_id := user_id'; r_user_name := user_name';
                   r_reservation_time := now; r_status := confirmed;
                   r_created_at := now; r_updated_at := now |} in
              ({| sessions := sessions st;
                  sessions_id_seq := sessions_id_seq st;
                  reservations := row :: reservations st;
                  reservations_id_seq := id |},
               inr row)
          end
    | _, _ => refused string_data_right_truncation
    end
  else (st, inl invalid_parameter).

(** Modelled from the spec: the handler [CreateReservation] of the
    session service, which the gateway calls and whose code is missing
    (spec 4.2, steps 1 to 5, in that order).  [user_name] is the display
    name for the column [user_name], which the caller's identity carries.
    The session has passed when its end time is before the time of the
    call.  Step 5 is one transaction: when the insertion is refused
    nothing is written and the failure is [Internal]. *)
Definition CreateReservation (st : Store) (now : Z) (session_id : Z)
    (user_id user_name : string) : Store * Result ReservationRow :=
  match find_session session_id st with
  | None => (st, Err codes.NotFound)
  | Some s =>
      if s_is_cancelled s || (s_end_time s <? now) then
        (st, Err codes.FailedPrecondition)
      else if existsb (active_for session_id user_id) (reservations st) then
        (st, Err codes.AlreadyExists)
      else if s_reserved_spots s =? s_capacity s then
        (st, Err codes.ResourceExhausted)
      else
        match insert_reservation st now session_id user_id user_name with
        | (st', inl _) => (st', Err codes.Internal)
        | (st', inr row) =>
            (update_session session_id
               (fun s => set_reserved_spots (s_reserved_spots s + 1) s) st',
             Ok row)
        end
  end.

(** The identity of a caller: the subject and the role of the verified
    credential ([req.user.userId] and [req.user.role] in the gateway). *)
Record Caller := { subject : string; role : string }.

Definition is_admin (c : Caller) : bool := String.eqb (role c) "admin".

(** Modelled from the spec: the handler [CancelReservation], whose code is
    missing (spec 4.2 and the state machine of a reservation): not found,
    then permission, then the state of the reservation; the cancellation
    marks the row and takes one from the session's count, never below 0,
    in one transaction. *)
Definition CancelReservation (st : Store) (now : Z) (reservation_id : Z)
    (caller : Caller) : Store * Result ReservationRow :=
  match find_reservation reservation_id st with
  | None => (st, Err codes.NotFound)
  | Some r =>
      if negb (String.eqb (subject caller) (r_user_id r))
         && negb (is_admin caller) then
        (st, Err codes.PermissionDenied)
      else
        match r_status r with
        | cancelled => (st, Err codes.FailedPrecondition)
        | confirmed =>
            (update_session (r_session_id r)
               (fun s =>
                  set_reserved_spots (Z.max 0 (s_reserved_spots s - 1)) s)
               (update_reservation reservation_id
                  (set_status cancelled now) st),
             Ok (set_status cancelled now r))
        end
  end.

(** The fields of an update; [None] is a field that the request leaves
    out. *)
Record UpdateSessionRequest := {
  u_session_id : Z;
  u_title : option string;
  u_description : option string;
  u_coach_id : option string;
  u_capacity : option Z;
  u_start_time : option string;
  u_end_time : option string;
  u_location : option string;
  u_session_type : option string;
  u_difficulty_level : option string;
  u_is_cancelled : option bool
}.

(** A column of the updated row: the stored value when the request leaves
    the field out, the converted new value otherwise. *)
Definition column {A B} (old : B) (new : option A) (conv : A -> option B)
    : option B :=
  match new with
  | None => Some old
  | Some a => conv a
  end.

Definition clean (s : string) : option string :=
  if has_nul s then None else Some s.

Definition clean_varchar (n : nat) (s : string) : option string :=
  if has_nul s then None else varchar n s.

Definition clean_timestamp (now : Z) (s : string) : option Z :=
  if has_nul s then None else timestamp_in now s.

(** [UPDATE sessions SET .., updated_at = CURRENT_TIMESTAMP WHERE id = $1]
    with the provided fields, under the column types of [initDatabase]. *)
Definition updated_row (now : Z) (req : UpdateSessionRequest)
    (s : SessionRow) : option SessionRow :=
  match column (s_title s) (u_title req) (clean_varchar 255),
        column (s_description s) (u_description req) clean,
        column (s_coach_id s) (u_coach_id req) (clean_varchar 100),
        column (s_capacity s) (u_capacity req) int4,
        column (s_start_time s) (u_start_time req) (clean_timestamp now),
        column (s_end_time s) (u_end_time req) (clean_timestamp now),
        column (s_location s) (u_location req) (clean_varchar 255),
        column (s_session_type s) (u_session_type req) (clean_varchar 100),
        column (s_difficulty_level s) (u_difficulty_level req)
          (clean_varchar 50),
        column (s_is_cancelled s) (u_is_cancelled req) Some with
  | Some title, Some description, Some coach_id, Some capacity,
    Some start_time, Some end_time, Some location, Some session_type,
    Some difficulty_level, Some is_cancelled =>
      Some {| s_id := s_id s; s_title := title;
              s_description := description; s_coach_id := coach_id;
              s_coach_name := s_coach_name s; s_capacity := capacity;
              s_reserved_spots := s_reserved_spots s;
              s_start_time := start_time; s_end_time := end_time;
              s_location := location; s_session_type := session_type;
              s_difficulty_level := difficulty_level;
              s_is_cancelled := is_cancelled;
              s_created_at := s_created_at s; s_updated_at := now |}
  | _, _, _, _, _, _, _, _, _, _ => None
  end.

(** Modelled from the spec: the handler [UpdateSession], whose code is
    missing (spec 4.1): only the provided fields change, the resulting
    capacity is checked against the reservations already taken before
    anything is written, and [updated_at] is renewed. *)
Definition UpdateSession (st : Store) (now : Z) (req : UpdateSessionRequest)
    : Store * Result SessionRow :=
  match find_session (u_session_id req) st with
  | None => (st, Err codes.NotFound)
  | Some s =>
      let capacity :=
        match u_capacity req with Some c => c | None => s_capacity s end in
      if capacity <? s_reserved_spots s then
        (st, Err codes.FailedPrecondition)
      else
        match updated_row now req s with
        | None => (st, Err codes.Internal)
        | Some s' => (update_session (u_session_id req) (fun _ => s') st,
                      Ok s')
        end
  end.

(** Modelled from the spec: the handler [DeleteSession], whose code is
    missing (spec 4.1): the reservations of the session go with it, by
    the cascade of the schema. *)
Definition DeleteSession (st : Store) (session_id : Z)
    : Store * Result unit :=
  match find_session session_id st with
  | None => (st, Err codes.NotFound)
  | Some _ => (delete_session session_id st, Ok tt)
  end.

(** ** Histories *)

(** A call that changes the store, with the time at which it runs. *)
Inductive Op : Type :=
| OpCreateSession (now : Z) (req : pb.CreateSessionRequest)
| OpUpdateSession (now : Z) (req : UpdateSessionRequest)
| OpDeleteSession (session_id : Z)
| OpCreateReservation (now : Z) (session_id : Z) (user_id user_name : string)
| OpCancelReservation (now : Z) (reservation_id : Z) (caller : Caller).

Definition step (st : Store) (op : Op) : Store :=
  match op with
  | OpCreateSession now req => fst (CreateSession st now req)
  | OpUpdateSession now req => fst (UpdateSession st now req)
  | OpDeleteSession id => fst (DeleteSession st id)
  | OpCreateReservation now id user name =>
      fst (CreateReservation st now id user name)
  | OpCancelReservation now id caller =>
      fst (CancelReservation st now id caller)
  end.

(** The store after a history of calls, the earliest first. *)
Definition run (st : Store) (ops : list Op) : Store := fold_left step ops st.

End SessionService.

(* ===================================================================== *)
(** * Properties of stores and requests *)
(* ===================================================================== *)

(** The key of [UNIQUE(session_id, user_id)]. *)
Definition pair_of (r : ReservationRow) : Z * string :=
  (r_session_id r, r_user_id r).

(** What the schema and the handlers keep true of a store: the primary
    keys come from the sequences and are unique, no two reservations share
    their (session, user) pair, every reservation refers to a session, the
    count of a session is the number of its confirmed reservations and is
    within its capacity, and a user id is as wide as its column. *)
Record consistent (st : Store) : Prop := {
  session_ids_unique : NoDup (map s_id (sessions st));
  session_ids_drawn :
    forall s, In s (sessions st) -> s_id s <= sessions_id_seq st;
  reservation_ids_unique : NoDup (map r_id (reservations st));
  reservation_ids_drawn :
    forall r, In r (reservations st) -> r_id r <= reservations_id_seq st;
  pairs_unique : NoDup (map pair_of (reservations st));
  references :
    forall r, In r (reservations st) ->
    exists s, In s (sessions st) /\ s_id s = r_session_id r;
  count_consistent :
    forall s, In s (sessions st) ->
    s_reserved_spots s = active_count (s_id s) st;
  within_capacity :
    forall s, In s (sessions st) -> s_reserved_spots s <= s_capacity s;
  user_ids_stored :
    forall r, In r (reservations st) -> (char_length (r_user_id r) <= 100)%nat
}.

(** The reservation [id] is settled: its row, if the table still has it,
    is cancelled, and the sequence has passed its id. *)
Definition settled (id : Z) (st : Store) : Prop :=
  id <= reservations_id_seq st
  /\ forall r, In r (reservations st) -> r_id r = id -> r_status r = cancelled.


(** The confirmed reservations of a user for a session. *)
Definition confirmed_for (session_id : Z) (user_id : string) (st : Store)
    : list ReservationRow :=
  filter (active_for session_id user_id) (reservations st).

(** A session that takes reservations at the time [now]: it is not
    cancelled and its end time has not passed. *)
Definition open_at (now : Z) (s : SessionRow) : Prop :=
  s_is_cancelled s = false /\ now <= s_end_time s.

(** Text that a [VARCHAR(n)] column stores as it is. *)
Definition fits (n : nat) (s : string) : Prop :=
  has_nul s = false /\ (char_length s <= n)%nat.

(** The required fields of a [CreateSession] request, every text but the
    description, are present; a valid request has them and a capacity of at
    least 1. *)
Definition required_fields_present (req : pb.CreateSessionRequest) : Prop :=
  pb.Title req <> "" /\ pb.CoachId req <> "" /\ pb.StartTime req <> "" /\
  pb.EndTime req <> "" /\ pb.Location req <> "" /\
  pb.SessionType req <> "" /\ pb.DifficultyLevel req <> "".

Definition valid_request (req : pb.CreateSessionRequest) : Prop :=
  required_fields_present req /\ 1 <= pb.Capacity req.

(** A request whose values the columns of [sessions] take as they are: the
    texts fit their columns and the capacity is an [INT]; the two times
    hold no zero byte (whether they are timestamps is for the store's
    conversion to say). *)
Definition storable (req : pb.CreateSessionRequest) : Prop :=
  fits 255 (pb.Title req) /\ has_nul (pb.Description req) = false /\
  fits 100 (pb.CoachId req) /\ pb.Capacity req <= 2147483647 /\
  has_nul (pb.StartTime req) = false /\ has_nul (pb.EndTime req) = false /\
  fits 255 (pb.Location req) /\ fits 100 (pb.SessionType req) /\
  fits 50 (pb.DifficultyLevel req).

(** The row that [CreateSession] stores for a storable request whose times
    the store reads as [t0] and [t1], and the reply that it sends. *)
Definition created_row (st : Store) (now : Z) (req : pb.CreateSessionRequest)
    (t0 t1 : Z) : SessionRow :=
  {| s_id := sessions_id_seq st + 1;
     s_title := pb.Title req;
     s_description := pb.Description req;
     s_coach_id := pb.CoachId req;
     s_coach_name := "Coach Name";
     s_capacity := pb.Capacity req;
     s_reserved_spots := 0;
     s_start_time := t0;
     s_end_time := t1;
     s_location := pb.Location req;
     s_session_type := pb.SessionType req;
     s_difficulty_level := pb.DifficultyLevel req;
     s_is_cancelled := false;
     s_created_at := now;
     s_updated_at := now |}.

Definition created_reply (st : Store) (now : Z) (req : pb.CreateSessionRequest)
    : pb.Session.t :=
  {| pb.Session.Id := Sprint (sessions_id_seq st + 1);
     pb.Session.Title := pb.Title req;
     pb.Session.Description := pb.Description req;
     pb.Session.CoachId := pb.CoachId req;
     pb.Session.CoachName := "Coach Name";
     pb.Session.Capacity := pb.Capacity req;
     pb.Session.ReservedSpots := 0;
     pb.Session.StartTime := pb.StartTime req;
     pb.Session.EndTime := pb.EndTime req;
     pb.Session.Location := pb.Location req;
     pb.Session.SessionType := pb.SessionType req;
     pb.Session.DifficultyLevel := pb.DifficultyLevel req;
     pb.Session.IsCancelled := false;
     pb.Session.CreatedAt := formatTimestamp now;
     pb.Session.UpdatedAt := formatTimestamp now |}.

(** The store with one more session, whose id the sequence has given. *)
Definition with_session (row : SessionRow) (st : Store) : Store :=
  {| sessions := row :: sessions st;
     sessions_id_seq := sessions_id_seq st + 1;
     reservations := reservations st;
     reservations_id_seq := reservations_id_seq st |}.

(** The reservation that [CreateReservation] stores for a user whose id
    and name fit their columns, and the store that it leaves: the row is
    confirmed and the count of the session is one more. *)
Definition new_reservation (st : Store) (now : Z) (session_id : Z)
    (user_id user_name : string) : ReservationRow :=
  {| r_id := reservations_id_seq st + 1;
     r_session_id := session_id;
     r_user_id := user_id;
     r_user_name := user_name;
     r_reservation_time := now;
     r_status := confirmed;
     r_created_at := now;
     r_updated_at := now |}.

Definition admitted (st : Store) (now : Z) (session_id : Z)
    (user_id user_name : string) : Store :=
  {| sessions :=
       map (at_key s_id session_id
              (fun s => set_reserved_spots (s_reserved_spots s + 1) s))
           (sessions st);
     sessions_id_seq := sessions_id_seq st;
     reservations :=
       new_reservation st now session_id user_id user_name :: reservations st;
     reservations_id_seq := reservations_id_seq st + 1 |}.

(** The end of a request is not after its start, for the store's reading
    of the two times. *)
Definition ends_before_it_starts (timestamp_in : Z -> string -> option Z)
    (now : Z) (req : pb.CreateSessionRequest) : Prop :=
  exists t0 t1, timestamp_in now (pb.StartTime req) = Some t0 /\
                timestamp_in now (pb.EndTime req) = Some t1 /\ t1 <= t0.

(** ** Concrete requests *)

Module example.

(** The request of the service's documentation, for the coach [coach-7]. *)
Definition yoga : pb.CreateSessionRequest :=
  {| pb.Title := "Morning Yoga";
     pb.Description := "Energizing session";
     pb.CoachId := "coach-7";
     pb.Capacity := 15;
     pb.StartTime := "2025-05-15T08:00:00Z";
     pb.EndTime := "2025-05-15T09:00:00Z";
     pb.Location := "Studio A";
     pb.SessionType := "yoga";
     pb.DifficultyLevel := "intermediate" |}.

Definition with_capacity (c : Z) (req : pb.CreateSessionRequest)
    : pb.CreateSessionRequest :=
  {| pb.Title := pb.Title req; pb.Description := pb.Description req;
     pb.CoachId := pb.CoachId req; pb.Capacity := c;
     pb.StartTime := pb.StartTime req; pb.EndTime := pb.EndTime req;
     pb.Location := pb.Location req; pb.SessionType := pb.SessionType req;
     pb.DifficultyLevel := pb.DifficultyLevel req |}.

Definition with_title (t : string) (req : pb.CreateSessionRequest)
    : pb.CreateSessionRequest :=
  {| pb.Title := t; pb.Description := pb.Description req;
     pb.CoachId := pb.CoachId req; pb.Capacity := pb.Capacity req;
     pb.StartTime := pb.StartTime req; pb.EndTime := pb.EndTime req;
     pb.Location := pb.Location req; pb.SessionType := pb.SessionType req;
     pb.DifficultyLevel := pb.DifficultyLevel req |}.

Definition with_times (t0 t1 : string) (req : pb.CreateSessionRequest)
    : pb.CreateSessionRequest :=
  {| pb.Title := pb.Title req; pb.Description := pb.Description req;
     pb.CoachId := pb.CoachId req; pb.Capacity := pb.Capacity req;
     pb.StartTime := t0; pb.EndTime := t1;
     pb.Location := pb.Location req; pb.SessionType := pb.SessionType req;
     pb.DifficultyLevel := pb.DifficultyLevel req |}.

(** 2025-05-01 12:00:00, two weeks before the session. *)
Definition noon : Z := 1746100800 * usec_per_sec.

Definition alice : Caller := {| subject := "alice"; role := "member" |}.
Definition bob : Caller := {| subject := "bob"; role := "member" |}.
Definition root : Caller := {| subject := "root"; role := "admin" |}.

(** A title of 256 letters. *)
Definition long_title : string :=
  string_of_list_ascii (repeat "a"%char 256).

(** The store with the yoga session and nothing else. *)
Definition one_session : Store :=
  fst (CreateSession iso8601_in empty_store noon yoga).

(** 2025-05-15 08:00:00 and 09:00:00. *)
Definition eight : Z := 1747296000 * usec_per_sec.
Definition nine : Z := 1747299600 * usec_per_sec.

(** The yoga session for one person, and the history that creates it. *)
Definition solo : pb.CreateSessionRequest := with_capacity 1 yoga.

Definition solo_created : list Op := [OpCreateSession noon solo].

(** The histories of the yoga session: created, booked by alice, and the
    booking cancelled by her. *)
Definition created : list Op := [OpCreateSession noon yoga].

Definition booked : list Op :=
  created ++ [OpCreateReservation noon 1 "alice" "Alice"].

Definition booked_and_cancelled : list Op :=
  booked ++ [OpCancelReservation noon 1 alice].

(** An update of session 1 that only sets its capacity. *)
Definition resize (c : Z) : UpdateSessionRequest :=
  {| u_session_id := 1; u_title := None; u_description := None;
     u_coach_id := None; u_capacity := Some c; u_start_time := None;
     u_end_time := None; u_location := None; u_session_type := None;
     u_difficulty_level := None; u_is_cancelled := None |}.

(** The yoga session with its end an hour before its start. *)
Definition backwards : pb.CreateSessionRequest :=
  with_times "2025-05-15T09:00:00Z" "2025-05-15T08:00:00Z" yoga.

End example.

(* ===================================================================== *)
(** * Reading a session: [GetSession] *)
(* ===================================================================== *)

Section Reading.

(** The store's conversion of the text of an [INT] parameter: the request's
    [session_id] is a string that the statement compares with [id]. *)
Variable int4_in : string -> option Z.

(** [SELECT id, title, .. FROM sessions WHERE id = $1], with one row
    scanned: the row of that id, no row, or the store's refusal of the
    parameter. *)
Definition select_session (st : Store) (session_id : string)
    : PgError + option SessionRow :=
  if bind_text [session_id] then
    match int4_in session_id with
    | Some id => inr (find_session id st)
    | None => inl invalid_parameter
    end
  else inl invalid_parameter.

(** [GetSession]: the query, [sql.ErrNoRows] answered with NotFound and
    every other failure with Internal, and the four timestamps
    formatted. *)
Definition GetSession (st : Store) (session_id : string)
    : Result pb.Session.t :=
  match select_session st session_id with
  | inl _ => Err codes.Internal
  | inr None => Err codes.NotFound
  | inr (Some s) =>
      Ok {| pb.Session.Id := Sprint (s_id s);
            pb.Session.Title := s_title s;
            pb.Session.Description := s_description s;
            pb.Session.CoachId := s_coach_id s;
            pb.Session.CoachName := s_coach_name s;
            pb.Session.Capacity := s_capacity s;
            pb.Session.ReservedSpots := s_reserved_spots s;
            (* Format the timestamps *)
            pb.Session.StartTime := formatTimestamp (s_start_time s);
            pb.Session.EndTime := formatTimestamp (s_end_time s);
            pb.Session.Location := s_location s;
            pb.Session.SessionType := s_session_type s;
            pb.Session.DifficultyLevel := s_difficulty_level s;
            pb.Session.IsCancelled := s_is_cancelled s;
            pb.Session.CreatedAt := formatTimestamp (s_created_at s);
            pb.Session.UpdatedAt := formatTimestamp (s_updated_at s) |}
  end.

End Reading.

(** The decimal numerals among the texts that the store reads as an [INT]:
    digits, with [-] before them for a negative number; they serve to run
    [GetSession] on concrete ids. *)
Definition decimal_in (s : string) : option Z :=
  match NilZero.int_of_string s with
  | Some d => int4 (Z.of_int d)
  | None => None
  end.

(** A history of [CreateSession] calls, each with its time, the earliest
    first, and the store that it leaves. *)
Definition create_all (timestamp_in : Z -> string -> option Z) (st : Store)
    (calls : list (Z * pb.CreateSessionRequest)) : Store :=
  fold_left (fun st c => fst (CreateSession timestamp_in st (fst c) (snd c)))
            calls st.

(** What [CreateSession] lets into [sessions]: a row with a capacity of at
    least 1, no place taken, not cancelled, the placeholder for the coach's
    name, and required texts that are not empty and fit their columns. *)
Definition well_formed (s : SessionRow) : Prop :=
  1 <= s_capacity s <= 2147483647
  /\ s_reserved_spots s = 0 /\ s_is_cancelled s = false
  /\ s_coach_name s = "Coach Name"
  /\ (s_title s <> "" /\ (char_length (s_title s) <= 255)%nat)
  /\ (s_coach_id s <> "" /\ (char_length (s_coach_id s) <= 100)%nat)
  /\ (s_location s <> "" /\ (char_length (s_location s) <= 255)%nat)
  /\ (s_session_type s <> "" /\ (char_length (s_session_type s) <= 100)%nat)
  /\ (s_difficulty_level s <> ""
      /\ (char_length (s_difficulty_level s) <= 50)%nat).

(* ===================================================================== *)
(** * The gateway's routes: index.js and session.routes.js *)
(* ===================================================================== *)

(** The methods of [sessionClient]. *)
Module sessionClient.

Inductive Rpc : Set :=
| ListSessions | GetSession | CreateSession | UpdateSession | DeleteSession
| CreateReservation | GetReservation | CancelReservation
| ListUserReservations | ListSessionReservations.

End sessionClient.

Module express.

Inductive Method : Set := GET | POST | PUT | DELETE | PATCH.

Definition method_eqb (a b : Method) : bool :=
  match a, b with
  | GET, GET | POST, POST | PUT, PUT | DELETE, DELETE | PATCH, PATCH => true
  | _, _ => false
  end.

(** A request as the routes see it, its body parsed: the path is the list
    of its segments, for a path without doubled slashes and without
    percent escapes; [authorization] is the header of that name, and
    [body_user_id] is [req.body.user_id] when it is given and not empty. *)
Record Request := {
  method : Method;
  path : list string;
  authorization : option string;
  body_user_id : option string
}.

(** What a handler does with a request: it calls a method of
    [sessionClient], answers with a status of its own, throws on a property
    of [undefined], or (none of the handlers of the router does) hands the
    request on.  Of the message of a call, the fields that come from the
    path and from the credential are kept; those copied from the body and
    the query string are not modelled. *)
Inductive Outcome : Type :=
| Call (rpc : sessionClient.Rpc) (fields : list (string * string))
| Status (code : Z)
| TypeError
| Next.

(** A segment of a route's path: fixed text, compared without regard to
    case, or a parameter, which takes any segment. *)
Inductive Segment : Set :=
| literal (s : string)
| parameter (name : string).

Definition lower (c : ascii) : ascii :=
  let n := N_of_ascii c in
  if (65 <=? n)%N && (n <=? 90)%N then ascii_of_N (n + 32) else c.

Fixpoint lowercase (s : string) : string :=
  match s with
  | EmptyString => EmptyString
  | String c r => String (lower c) (lowercase r)
  end.

(** The parameters of a path that the pattern matches, in order. *)
Fixpoint matches (pattern : list Segment) (segments : list string)
    : option (list string) :=
  match pattern, segments with
  | [], [] => Some []
  | literal s :: pattern', x :: segments' =>
      if String.eqb (lowercase s) (lowercase x) then matches pattern' segments'
      else None
  | parameter _ :: pattern', x :: segments' =>
      option_map (cons x) (matches pattern' segments')
  | _, _ => None
  end.

Definition first_param (params : list string) : string :=
  match params with
  | x :: _ => x
  | [] => ""
  end.

(** The handlers of session.routes.js, in the order of the file; [user] is
    [req.user]. *)
Definition Handler : Type :=
  list string -> option Caller -> Request -> Outcome.

Definition listSessions : Handler := fun _ _ _ =>
  Call sessionClient.ListSessions [].

Definition getSession : Handler := fun params _ _ =>
  Call sessionClient.GetSession [("session_id", first_param params)].

Definition createSession : Handler := fun _ _ _ =>
  Call sessionClient.CreateSession [].

Definition updateSession : Handler := fun params _ _ =>
  Call sessionClient.UpdateSession [("session_id", first_param params)].

Definition deleteSession : Handler := fun params _ _ =>
  Call sessionClient.DeleteSession [("session_id", first_param params)].

(** [const userId = user_id || req.user.userId]. *)
Definition createReservation : Handler := fun _ user req =>
  match body_user_id req, user with
  | Some u, _ => Call sessionClient.CreateReservation [("user_id", u)]
  | None, Some c => Call sessionClient.CreateReservation
                      [("user_id", subject c)]
  | None, None => TypeError
  end.

Definition getReservation : Handler := fun params _ _ =>
  Call sessionClient.GetReservation [("reservation_id", first_param params)].

Definition cancelReservation : Handler := fun params user _ =>
  match user with
  | Some c => Call sessionClient.CancelReservation
                [("reservation_id", first_param params);
                 ("user_id", subject c)]
  | None => TypeError
  end.

(** [if (req.user.userId !== req.params.userId && req.user.role !==
    'admin') return res.status(403)..]. *)
Definition listUserReservations : Handler := fun params user _ =>
  match user with
  | Some c =>
      if negb (String.eqb (subject c) (first_param params))
         && negb (String.eqb (role c) "admin")
      then Status 403
      else Call sessionClient.ListUserReservations
             [("user_id", first_param params)]
  | None => TypeError
  end.

Definition listSessionReservations : Handler := fun params _ _ =>
  Call sessionClient.ListSessionReservations
    [("session_id", first_param params)].

(** The router of session.routes.js: its routes in the order in which the
    file registers them. *)
Definition router : list (Method * list Segment * Handler) :=
  [ (GET, [], listSessions);
    (GET, [parameter "id"], getSession);
    (POST, [], createSession);
    (PUT, [parameter "id"], updateSession);
    (DELETE, [parameter "id"], deleteSession);
    (POST, [], createReservation);
    (GET, [parameter "id"], getReservation);
    (DELETE, [parameter "id"], cancelReservation);
    (GET, [literal "user"; parameter "userId"], listUserReservations);
    (GET, [literal "session"; parameter "sessionId"],
     listSessionReservations) ].

(** A request goes to the first route of its method whose path matches. *)
Fixpoint dispatch (routes : list (Method * list Segment * Handler))
    (user : option Caller) (segments : list string) (req : Request)
    : Outcome :=
  match routes with
  | [] => Next
  | (m, pattern, handler) :: routes' =>
      if method_eqb m (method req) then
        match matches pattern segments with
        | Some params => handler params user req
        | None => dispatch routes' user segments req
        end
      else dispatch routes' user segments req
  end.

(** [header.replace('Bearer ', '')]: the first occurrence is taken out. *)
Fixpoint remove_first (pattern s : string) : string :=
  if String.prefix pattern s then
    String.substring (String.length pattern)
      (String.length s - String.length pattern) s
  else
    match s with
    | EmptyString => EmptyString
    | String c r => String c (remove_first pattern r)
    end.

(** [verifyToken]: the user of the token, for [next()], or the status of
    the refusal.  [jwt_verify] is [jwt.verify] with the secret of the
    gateway, [None] when it throws. *)
Definition verifyToken (jwt_verify : string -> option Caller)
    (req : Request) : Z + Caller :=
  match option_map (remove_first "Bearer ") (authorization req) with
  | None => inl 401
  | Some token =>
      if String.eqb token "" then inl 401
      else match jwt_verify token with
           | Some decoded => inr decoded
           | None => inl 401
           end
  end.

(** What the application answers to a request of a path that it mounts
    the router on; the other paths go to the other services. *)
Inductive Answer : Type :=
| Rpc (rpc : sessionClient.Rpc) (fields : list (string * string))
| Http (status : Z)
| Elsewhere.

(** The end of a request that the router has had: a call, the status of
    the handler, 500 from the error handling middleware for what a handler
    throws, 404 when no route has taken the request. *)
Definition finish (o : Outcome) : Answer :=
  match o with
  | Call rpc fields => Rpc rpc fields
  | Status code => Http code
  | TypeError => Http 500
  | Next => Http 404
  end.

(** [app.use('/api/sessions', sessionRoutes)] and
    [app.use('/api/reservations', verifyToken, sessionRoutes)]; no file of
    the static directory lies under these two paths. *)
Definition app (jwt_verify : string -> option Caller) (req : Request)
    : Answer :=
  match path req with
  | a :: b :: rest =>
      if String.eqb (lowercase a) "api" then
        if String.eqb (lowercase b) "sessions" then
          finish (dispatch router None rest req)
        else if String.eqb (lowercase b) "reservations" then
          match verifyToken jwt_verify req with
          | inl status => Http status
          | inr decoded => finish (dispatch router (Some decoded) rest req)
          end
        else Elsewhere
      else Elsewhere
  | _ => Elsewhere
  end.

(** The request with another [Authorization] header, or with none. *)
Definition with_authorization (h : option string) (req : Request) : Request :=
  {| method := method req; path := path req; authorization := h;
     body_user_id := body_user_id req |}.

End express.

(* ===================================================================== *)
(** * The digits of [formatTimestamp], by enumeration *)
(* ===================================================================== *)

(** [f] holds of the [n] integers from [i] on. *)
Fixpoint all_from (n : nat) (i : Z) (f : Z -> bool) : bool :=
  match n with
  | O => true
  | S k => f i && all_from k (i + 1) f
  end.

(** [pad 2 n] is two characters that [number_of] reads as [n]. *)
Definition two_digits (n : Z) : bool :=
  match pad 2 n with
  | String a (String b EmptyString) =>
      match number_of [a; b] 0 with
      | Some k => k =? n
      | None => false
      end
  | _ => false
  end.

(** [pad 4 n] is four characters that [number_of] reads as [n]. *)
Definition four_digits (n : Z) : bool :=
  match pad 4 n with
  | String a (String b (String c (String d EmptyString))) =>
      match number_of [a; b; c; d] 0 with
      | Some k => k =? n
      | None => false
      end
  | _ => false
  end.

(* ===================================================================== *)
(** ** Concrete requests of the gateway *)
(* ===================================================================== *)

Module sample.

(** A verifier that knows the tokens of alice, a member, and of root, an
    administrator. *)
Definition jwt_verify (token : string) : option Caller :=
  if String.eqb token "alice-token" then Some example.alice
  else if String.eqb token "root-token" then Some example.root
  else None.

Definition request (m : express.Method) (p : list string)
    (h : option string) : express.Request :=
  {| express.method := m; express.path := p; express.authorization := h;
     express.body_user_id := None |}.

Definition as_alice : option string := Some "Bearer alice-token".

(** 2025-05-15 08:00:00.123456. *)
Definition eight_and_a_bit : Z := example.eight + 123456.

(** Three calls of [CreateSession], the second without a title. *)
Definition three_calls : list (Z * pb.CreateSessionRequest) :=
  [ (example.noon, example.yoga);
    (example.noon, example.with_title "" example.yoga);
    (example.noon, example.solo) ].

End sample.

(* ===================================================================== *)
(** * Tables as lists of rows *)
(* ===================================================================== *)

Section Tables.

Context {A : Type} (key : A -> Z).

Lemma find_key_In (id : Z) (l : list A) (x : A) :
  find (fun y => key y =? id) l = Some x -> In x l /\ key x = id.
Proof.
  intros H. apply find_some in H. destruct H as [Hin Hk].
  split; [assumption | now apply Z.eqb_eq].
Qed.


Lemma find_key_absent (id : Z) (l : list A) :
  (forall x, In x l -> key x <> id) ->
  find (fun y => key y =? id) l = None.
Proof.
  induction l as [|y l IH]; simpl; intros H; [reflexivity|].
  destruct (Z.eqb_spec (key y) id) as [E|_].
  - exfalso. apply (H y); auto.
  - apply IH. intros x Hx. apply H. auto.
Qed.

Lemma find_key_unique (l : list A) (x : A) :
  NoDup (map key l) -> In x l ->
  find (fun y => key y =? key x) l = Some x.
Proof.
  induction l as [|y l IH]; simpl; intros Hnd Hin; [contradiction|].
  inversion Hnd as [|? ? Hy Hnd']; subst.
  destruct Hin as [->|Hin].
  - now rewrite Z.eqb_refl.
  - destruct (Z.eqb_spec (key y) (key x)) as [E|_].
    + exfalso. apply Hy. rewrite E. now apply in_map.
    + now apply IH.
Qed.

Lemma key_at_key (id : Z) (f : A -> A) (x : A) :
  (forall y, key y = id -> key (f y) = id) ->
  key (at_key key id f x) = key x.
Proof.
  intros Hf. unfold at_key.
  destruct (Z.eqb_spec (key x) id) as [E|_]; [|reflexivity].
  rewrite E. now apply Hf.
Qed.

Lemma map_key_update (id : Z) (f : A -> A) (l : list A) :
  (forall y, key y = id -> key (f y) = id) ->
  map key (map (at_key key id f) l) = map key l.
Proof.
  intros Hf. rewrite map_map. apply map_ext.
  intros x. now apply key_at_key.
Qed.

Lemma update_absent (id : Z) (f : A -> A) (l : list A) :
  (forall x, In x l -> key x <> id) -> map (at_key key id f) l = l.
Proof.
  intros H. rewrite <- (map_id l) at 2. apply map_ext_in.
  intros x Hin. unfold at_key.
  destruct (Z.eqb_spec (key x) id) as [E|_]; [|reflexivity].
  now apply H in Hin.
Qed.

Lemma In_update (id : Z) (f : A -> A) (l : list A) (x : A) :
  In x (map (at_key key id f) l) ->
  exists y, In y l /\
    ((key y = id /\ x = f y) \/ (key y <> id /\ x = y)).
Proof.
  intros H. apply in_map_iff in H. destruct H as [y [Hx Hy]].
  exists y. split; [assumption|]. unfold at_key in Hx.
  destruct (Z.eqb_spec (key y) id); [left | right]; auto.
Qed.

End Tables.

Lemma NoDup_map_filter {A B : Type} (g : A -> B) (p : A -> bool)
    (l : list A) :
  NoDup (map g l) -> NoDup (map g (filter p l)).
Proof.
  induction l as [|x l IH]; simpl; intros Hnd; [constructor|].
  inversion Hnd as [|? ? Hx Hnd']; subst.
  destruct (p x); simpl; auto.
  constructor; auto.
  intros Hin. apply Hx. apply in_map_iff in Hin.
  destruct Hin as [y [Hy Hin]]. apply filter_In in Hin.
  rewrite <- Hy. apply in_map. tauto.
Qed.

(* ===================================================================== *)
(** * What the statements do to the tables *)
(* ===================================================================== *)

Ltac break_match H :=
  match type of H with
  | context [match ?x with _ => _ end] => destruct x eqn:?
  end.

Lemma int4_Some (n m : Z) : int4 n = Some m -> m = n.
Proof. unfold int4. destruct (_ && _); congruence. Qed.

Lemma int4_in_range (n : Z) :
  -2147483648 <= n <= 2147483647 -> int4 n = Some n.
Proof.
  intros H. unfold int4.
  destruct (Z.leb_spec (-2147483648) n); [|lia].
  destruct (Z.leb_spec n 2147483647); [reflexivity | lia].
Qed.

Lemma varchar_fits (n : nat) (s : string) : fits n s -> varchar n s = Some s.
Proof.
  intros [_ H]. unfold varchar.
  destruct (Nat.leb_spec (char_length s) n); [reflexivity | lia].
Qed.

Lemma char_length_left_chars (s : string) : forall n,
  (char_length (left_chars n s) <= n)%nat.
Proof.
  induction s as [|c s IH]; simpl; intros n; [lia|].
  destruct (utf8_continuation c) eqn:E; simpl; rewrite ?E.
  - apply IH.
  - destruct n as [|n]; simpl; rewrite ?E; [lia|].
    specialize (IH n). lia.
Qed.

(** What a [VARCHAR(n)] column holds has at most [n] characters. *)
Lemma varchar_length (n : nat) (s s' : string) :
  varchar n s = Some s' -> (char_length s' <= n)%nat.
Proof.
  unfold varchar.
  destruct (Nat.leb_spec (char_length s) n) as [H|H].
  - intros E. inversion E; subst. exact H.
  - destruct (all_spaces _); [|discriminate].
    intros E. inversion E; subst. apply char_length_left_chars.
Qed.


Lemma active_count_reservations (id : Z) (st st' : Store) :
  reservations st' = reservations st -> active_count id st' = active_count id st.
Proof. unfold active_count. now intros ->. Qed.

(** A session that no reservation refers to has no active reservation. *)
Lemma filter_active_foreign (id : Z) (l : list ReservationRow) :
  (forall r, In r l -> r_session_id r <> id) -> filter (active id) l = [].
Proof.
  induction l as [|r l IH]; simpl; intros H; [reflexivity|].
  unfold active at 1.
  destruct (Z.eqb_spec (r_session_id r) id) as [E|_]; simpl.
  - exfalso. apply (H r); auto.
  - apply IH. intros; apply H; auto.
Qed.

(** The cascade of a deleted session leaves the reservations of the other
    sessions. *)
Lemma filter_active_cascade (id other : Z) (l : list ReservationRow) :
  id <> other ->
  filter (active id) (filter (fun r => negb (r_session_id r =? other)) l)
  = filter (active id) l.
Proof.
  intros Hne. induction l as [|r l IH]; simpl; [reflexivity|].
  destruct (Z.eqb_spec (r_session_id r) other) as [E|N]; simpl.
  - rewrite IH. unfold active at 2.
    destruct (Z.eqb_spec (r_session_id r) id); [congruence | reflexivity].
  - rewrite IH. reflexivity.
Qed.

Lemma active_set_cancelled (id now : Z) (r : ReservationRow) :
  active id (set_status cancelled now r) = false.
Proof. unfold active. simpl. apply andb_false_r. Qed.

Lemma active_confirmed (id : Z) (r : ReservationRow) :
  r_status r = confirmed -> active id r = (r_session_id r =? id).
Proof. intros H. unfold active. rewrite H. apply andb_true_r. Qed.

(** Cancelling the confirmed reservation [r] takes exactly one from the
    active reservations of its session and none from any other. *)
Lemma filter_active_cancel (now : Z) (r : ReservationRow)
    (l : list ReservationRow) (id : Z) :
  NoDup (map r_id l) -> In r l -> r_status r = confirmed ->
  Z.of_nat (List.length (filter (active id)
              (map (at_key r_id (r_id r) (set_status cancelled now)) l)))
  = Z.of_nat (List.length (filter (active id) l))
    - (if r_session_id r =? id then 1 else 0).
Proof.
  induction l as [|x l IH]; simpl; intros Hnd Hin Hst; [contradiction|].
  inversion Hnd as [|? ? Hx Hnd']; subst.
  destruct Hin as [->|Hin].
  - unfold at_key at 1. rewrite Z.eqb_refl.
    rewrite update_absent.
    + rewrite active_set_cancelled, (active_confirmed _ _ Hst).
      destruct (r_session_id r =? id); simpl List.length; lia.
    + intros y Hy E. apply Hx. rewrite <- E. now apply in_map.
  - unfold at_key at 1.
    destruct (Z.eqb_spec (r_id x) (r_id r)) as [E|_].
    + exfalso. apply Hx. rewrite E. now apply in_map.
    + specialize (IH Hnd' Hin Hst).
      destruct (active id x); simpl List.length; lia.
Qed.

Lemma map_pair_of_update (id : Z) (c : Status) (now : Z)
    (l : list ReservationRow) :
  map pair_of (map (at_key r_id id (set_status c now)) l) = map pair_of l.
Proof.
  rewrite map_map. apply map_ext. intros r. unfold at_key.
  destruct (r_id r =? id); reflexivity.
Qed.

Lemma pair_taken_In (id : Z) (user : string) (st : Store) :
  pair_taken id user st = false ->
  ~ In (id, user) (map pair_of (reservations st)).
Proof.
  unfold pair_taken. intros H Hin.
  apply in_map_iff in Hin. destruct Hin as [r [Hp Hin]].
  assert (E : existsb (same_pair id user) (reservations st) = true).
  { apply existsb_exists. exists r. split; [assumption|].
    unfold pair_of in Hp. inversion Hp. unfold same_pair.
    now rewrite Z.eqb_refl, String.eqb_refl. }
  congruence.
Qed.

Lemma pair_taken_true (id : Z) (user : string) (st : Store)
    (r : ReservationRow) :
  In r (reservations st) -> r_session_id r = id -> r_user_id r = user ->
  pair_taken id user st = true.
Proof.
  intros Hin <- <-. unfold pair_taken. apply existsb_exists.
  exists r. split; [assumption|]. unfold same_pair.
  now rewrite Z.eqb_refl, String.eqb_refl.
Qed.

(** A store whose tables are those of a consistent store, its sequences no
    earlier, is consistent. *)
Lemma consistent_tables (st st' : Store) :
  consistent st ->
  sessions st' = sessions st -> reservations st' = reservations st ->
  sessions_id_seq st <= sessions_id_seq st' ->
  reservations_id_seq st <= reservations_id_seq st' ->
  consistent st'.
Proof.
  intros C Hs Hr Hq Hq'.
  constructor; rewrite ?Hs, ?Hr; try apply C.
  - intros s Hin. apply (session_ids_drawn _ C) in Hin. lia.
  - intros r Hin. apply (reservation_ids_drawn _ C) in Hin. lia.
  - intros s Hin. rewrite (active_count_reservations _ _ _ Hr).
    now apply C.
Qed.

Lemma empty_consistent : consistent empty_store.
Proof.
  constructor; simpl; try constructor; intros; contradiction.
Qed.

(* ===================================================================== *)
(** * The handlers keep the store consistent *)
(* ===================================================================== *)

Section Preservation.

Variable timestamp_in : Z -> string -> option Z.

(** The row that a successful insertion adds to [sessions]. *)
Lemma insert_session_stored st now title description coach_id coach_name
    capacity start_time end_time location session_type difficulty_level
    st' row :
  insert_session timestamp_in st now title description coach_id coach_name
    capacity start_time end_time location session_type difficulty_level
  = (st', inr row) ->
  st' = {| sessions := row :: sessions st;
           sessions_id_seq := sessions_id_seq st + 1;
           reservations := reservations st;
           reservations_id_seq := reservations_id_seq st |} /\
  s_id row = sessions_id_seq st + 1 /\
  s_reserved_spots row = 0 /\ s_is_cancelled row = false /\
  s_capacity row = capacity /\
  s_created_at row = now /\ s_updated_at row = now /\
  varchar 255 coach_name = Some (s_coach_name row).
Proof.
  unfold insert_session. intros H.
  repeat (break_match H; try discriminate).
  inversion H; subst; clear H. simpl.
  match goal with E : int4 _ = Some _ |- _ => apply int4_Some in E; subst end.
  repeat split; auto.
Qed.

(** A refused insertion leaves both tables as they are. *)
Lemma insert_session_refused st now title description coach_id coach_name
    capacity start_time end_time location session_type difficulty_level
    st' e :
  insert_session timestamp_in st now title description coach_id coach_name
    capacity start_time end_time location session_type difficulty_level
  = (st', inl e) ->
  sessions st' = sessions st /\ reservations st' = reservations st /\
  reservations_id_seq st' = reservations_id_seq st /\
  sessions_id_seq st <= sessions_id_seq st'.
Proof.
  unfold insert_session. intros H.
  repeat (break_match H; try discriminate);
    inversion H; subst; clear H; simpl; repeat split; auto; lia.
Qed.

Lemma insert_reservation_stored st now session_id user_id user_name st' row :
  insert_reservation st now session_id user_id user_name = (st', inr row) ->
  st' = {| sessions := sessions st;
           sessions_id_seq := sessions_id_seq st;
           reservations := row :: reservations st;
           reservations_id_seq := reservations_id_seq st + 1 |} /\
  r_id row = reservations_id_seq st + 1 /\
  r_session_id row = session_id /\ r_status row = confirmed /\
  varchar 100 user_id = Some (r_user_id row) /\
  pair_taken session_id (r_user_id row) st = false.
Proof.
  unfold insert_reservation. intros H.
  repeat (break_match H; try discriminate).
  inversion H; subst; clear H. simpl. repeat split; auto.
Qed.

Lemma insert_reservation_refused st now session_id user_id user_name st' e :
  insert_reservation st now session_id user_id user_name = (st', inl e) ->
  sessions st' = sessions st /\ reservations st' = reservations st /\
  sessions_id_seq st' = sessions_id_seq st /\
  reservations_id_seq st <= reservations_id_seq st'.
Proof.
  unfold insert_reservation. intros H.
  repeat (break_match H; try discriminate);
    inversion H; subst; clear H; simpl; repeat split; auto; lia.
Qed.

(** The validation of [CreateSession] lets through exactly the requests
    with all required fields and a capacity of at least 1. *)
Lemma validation_passes (req : pb.CreateSessionRequest) :
  String.eqb (pb.Title req) "" || String.eqb (pb.CoachId req) ""
  || (pb.Capacity req <? 1)
  || String.eqb (pb.StartTime req) "" || String.eqb (pb.EndTime req) ""
  || String.eqb (pb.Location req) "" || String.eqb (pb.SessionType req) ""
  || String.eqb (pb.DifficultyLevel req) "" = false
  <-> valid_request req.
Proof.
  unfold valid_request, required_fields_present.
  rewrite !orb_false_iff, !String.eqb_neq, Z.ltb_ge. tauto.
Qed.

Lemma CreateSession_consistent st now req :
  consistent st -> consistent (fst (CreateSession timestamp_in st now req)).
Proof.
  intros C. unfold CreateSession.
  match goal with |- context [if ?b then _ else _] => destruct b eqn:V end;
    [exact C|].
  apply validation_passes in V. destruct V as [_ Hcap].
  destruct (insert_session _ _ _ _ _ _ _ _ _ _ _ _ _) as [st' [e|row]] eqn:I;
    simpl.
  - apply insert_session_refused in I. destruct I as (Hs & Hr & Hq & Hle).
    apply (consistent_tables st); auto. lia.
  - apply insert_session_stored in I.
    destruct I as (-> & Hid & Hres & _ & Hc & _).
    constructor; simpl; try apply C.
    + constructor; [|apply C]. intros Hin.
      apply in_map_iff in Hin. destruct Hin as [s [Hs Hin]].
      apply (session_ids_drawn _ C) in Hin. lia.
    + intros s [<-|Hin]; [lia|].
      apply (session_ids_drawn _ C) in Hin. lia.
    + intros r Hin. destruct (references _ C r Hin) as [s [Hs E]].
      exists s. auto.
    + intros s [<-|Hin].
      * rewrite Hres. unfold active_count. simpl.
        rewrite filter_active_foreign; [reflexivity|].
        intros r Hr E. destruct (references _ C r Hr) as [s [Hs E']].
        apply (session_ids_drawn _ C) in Hs. lia.
      * now apply (count_consistent _ C).
    + intros s [<-|Hin]; [lia|]. now apply C.
Qed.

Lemma DeleteSession_consistent st id :
  consistent st -> consistent (fst (DeleteSession st id)).
Proof.
  intros C. unfold DeleteSession.
  destruct (find_session id st); [|exact C]. simpl.
  constructor; simpl.
  - apply NoDup_map_filter, (session_ids_unique _ C).
  - intros s' Hin. apply filter_In in Hin. now apply C.
  - apply NoDup_map_filter, (reservation_ids_unique _ C).
  - intros r Hin. apply filter_In in Hin. now apply C.
  - apply NoDup_map_filter, (pairs_unique _ C).
  - intros r Hin. apply filter_In in Hin. destruct Hin as [Hin Hne].
    destruct (references _ C r Hin) as [s' [Hs E]].
    exists s'. split; [|assumption]. apply filter_In. split; [assumption|].
    now rewrite E.
  - intros s' Hin. apply filter_In in Hin. destruct Hin as [Hin Hne].
    apply negb_true_iff, Z.eqb_neq in Hne.
    unfold active_count. simpl. rewrite filter_active_cascade by assumption.
    now apply (count_consistent _ C).
  - intros s' Hin. apply filter_In in Hin. now apply C.
  - intros r Hin. apply filter_In in Hin. now apply C.
Qed.

Lemma updated_row_keeps now req s s' :
  updated_row timestamp_in now req s = Some s' ->
  s_id s' = s_id s /\ s_reserved_spots s' = s_reserved_spots s /\
  s_capacity s' =
    match u_capacity req with Some c => c | None => s_capacity s end.
Proof.
  unfold updated_row. intros H.
  repeat (break_match H; try discriminate).
  inversion H; subst; clear H. simpl. repeat split.
  match goal with E : column _ (u_capacity req) int4 = Some _ |- _ =>
    unfold column in E; destruct (u_capacity req);
    [now apply int4_Some in E | congruence]
  end.
Qed.

Lemma UpdateSession_consistent st now req :
  consistent st -> consistent (fst (UpdateSession timestamp_in st now req)).
Proof.
  intros C. unfold UpdateSession.
  destruct (find_session _ st) as [s|] eqn:F; [|exact C].
  match goal with |- context [if ?b then _ else _] => destruct b eqn:L end;
    [exact C|].
  destruct (updated_row _ _ _ _) as [s'|] eqn:U; [|exact C]. simpl.
  apply updated_row_keeps in U. destruct U as (Hid & Hres & Hcap).
  apply find_key_In in F. destruct F as [Hin Hk].
  apply Z.ltb_ge in L. rewrite <- Hcap in L.
  assert (Hf : forall y : SessionRow,
             s_id y = u_session_id req ->
             s_id ((fun _ => s') y) = u_session_id req)
    by (intros; simpl; congruence).
  constructor; simpl; try apply C.
  - rewrite map_key_update by exact Hf. apply C.
  - intros x Hx. apply in_map_iff in Hx. destruct Hx as [y [<- Hy]].
    rewrite key_at_key by exact Hf. now apply C.
  - intros r Hr. destruct (references _ C r Hr) as [y [Hy E]].
    exists (at_key s_id (u_session_id req) (fun _ => s') y).
    split; [now apply in_map|]. now rewrite key_at_key by exact Hf.
  - intros x Hx. apply In_update in Hx.
    destruct Hx as [y [Hy [[E ->]|[_ ->]]]].
    + rewrite Hres, Hid, (count_consistent _ C s Hin). reflexivity.
    + now apply (count_consistent _ C).
  - intros x Hx. apply In_update in Hx.
    destruct Hx as [y [Hy [[E ->]|[_ ->]]]]; [lia | now apply C].
Qed.
Lemma set_reserved_spots_id (id : Z) (g : SessionRow -> Z) :
  forall y : SessionRow,
  s_id y = id -> s_id ((fun s => set_reserved_spots (g s) s) y) = id.
Proof. intros y E. exact E. Qed.

Lemma active_count_insert (id : Z) (row : ReservationRow) (st st' : Store) :
  reservations st' = row :: reservations st ->
  active_count id st'
  = active_count id st + (if active id row then 1 else 0).
Proof.
  intros E. unfold active_count. rewrite E. simpl.
  destruct (active id row); simpl List.length; lia.
Qed.

Lemma CreateReservation_consistent st now session_id user_id user_name :
  consistent st ->
  consistent (fst (CreateReservation st now session_id user_id user_name)).
Proof.
  intros C. unfold CreateReservation.
  destruct (find_session session_id st) as [s|] eqn:F; [|exact C].
  destruct (s_is_cancelled s || (s_end_time s <? now)); [exact C|].
  destruct (existsb _ _); [exact C|].
  destruct (s_reserved_spots s =? s_capacity s) eqn:Q; [exact C|].
  destruct (insert_reservation _ _ _ _ _) as [st' [e|row]] eqn:I; simpl.
  - apply insert_reservation_refused in I. destruct I as (Hs & Hr & Hq & Hle).
    apply (consistent_tables st); auto. lia.
  - apply insert_reservation_stored in I.
    destruct I as (-> & Hid & Hsid & Hst & Hwide & Hfree).
    pose proof (set_reserved_spots_id session_id
                  (fun s => s_reserved_spots s + 1)) as Hf.
    pose proof F as F'. apply find_key_In in F'. destruct F' as [Hin Hk].
    apply Z.eqb_neq in Q.
    constructor; simpl.
    + rewrite map_key_update by exact Hf. apply C.
    + intros x Hx. apply in_map_iff in Hx. destruct Hx as [y [<- Hy]].
      rewrite key_at_key by exact Hf. now apply C.
    + constructor; [|apply C]. intros Hx.
      apply in_map_iff in Hx. destruct Hx as [r [Hr Hx]].
      apply (reservation_ids_drawn _ C) in Hx. lia.
    + intros r [<-|Hr]; [lia|].
      apply (reservation_ids_drawn _ C) in Hr. lia.
    + constructor; [|apply C]. unfold pair_of at 1. rewrite Hsid.
      now apply pair_taken_In.
    + intros r Hr.
      assert (E : exists y, In y (sessions st) /\ s_id y = r_session_id r).
      { destruct Hr as [<-|Hr]; [|now apply (references _ C)].
        exists s. split; [assumption | congruence]. }
      destruct E as [y [Hy E]].
      exists (at_key s_id session_id
                (fun s => set_reserved_spots (s_reserved_spots s + 1) s) y).
      split; [now apply in_map|]. now rewrite key_at_key by exact Hf.
    + intros x Hx. apply In_update in Hx.
      destruct Hx as [y [Hy [[E ->]|[N ->]]]]; simpl.
      * rewrite (active_count_insert _ row st) by reflexivity.
        rewrite (active_confirmed _ _ Hst), Hsid, E, Z.eqb_refl.
        rewrite (count_consistent _ C y Hy), E. reflexivity.
      * rewrite (active_count_insert _ row st) by reflexivity.
        rewrite (active_confirmed _ _ Hst), Hsid.
        destruct (Z.eqb_spec session_id (s_id y)); [congruence|].
        rewrite (count_consistent _ C y Hy). lia.
    + intros x Hx. apply In_update in Hx.
      destruct Hx as [y [Hy [[E ->]|[N ->]]]]; simpl; [|now apply C].
      assert (y = s) as ->.
      { pose proof (find_key_unique s_id _ y (session_ids_unique _ C) Hy)
          as U. unfold find_session in F. rewrite E, F in U. congruence. }
      pose proof (within_capacity _ C s Hin). lia.
    + intros r [<-|Hr]; [|now apply C].
      now apply varchar_length in Hwide.
Qed.

Lemma set_status_id (id : Z) (c : Status) (now : Z) :
  forall y : ReservationRow,
  r_id y = id -> r_id (set_status c now y) = id.
Proof. intros y E. exact E. Qed.

Lemma CancelReservation_consistent st now reservation_id caller :
  consistent st ->
  consistent (fst (CancelReservation st now reservation_id caller)).
Proof.
  intros C. unfold CancelReservation.
  destruct (find_reservation reservation_id st) as [r|] eqn:F; [|exact C].
  destruct (negb _ && negb _); [exact C|].
  destruct (r_status r) eqn:S; [|exact C]. simpl.
  apply find_key_In in F. destruct F as [Hin <-].
  pose proof (set_reserved_spots_id (r_session_id r)
                (fun s => Z.max 0 (s_reserved_spots s - 1))) as Hf.
  pose proof (set_status_id (r_id r) cancelled now) as Hg.
  assert (Hcount : forall id,
    active_count id
      (update_session (r_session_id r)
         (fun s => set_reserved_spots (Z.max 0 (s_reserved_spots s - 1)) s)
         (update_reservation (r_id r) (set_status cancelled now) st))
    = active_count id st - (if r_session_id r =? id then 1 else 0)).
  { intros id. unfold active_count. simpl.
    apply filter_active_cancel; auto. apply C. }
  constructor; simpl.
  - rewrite map_key_update by exact Hf. apply C.
  - intros x Hx. apply in_map_iff in Hx. destruct Hx as [y [<- Hy]].
    rewrite key_at_key by exact Hf. now apply C.
  - rewrite map_key_update by exact Hg. apply C.
  - intros x Hx. apply in_map_iff in Hx. destruct Hx as [y [<- Hy]].
    rewrite key_at_key by exact Hg. now apply C.
  - rewrite map_pair_of_update. apply C.
  - intros x Hx. apply in_map_iff in Hx. destruct Hx as [y [<- Hy]].
    destruct (references _ C y Hy) as [s [Hs E]].
    exists (at_key s_id (r_session_id r)
              (fun s => set_reserved_spots (Z.max 0 (s_reserved_spots s - 1)) s)
              s).
    split; [now apply in_map|]. rewrite key_at_key by exact Hf.
    rewrite E. unfold at_key. destruct (r_id y =? r_id r); reflexivity.
  - intros x Hx. rewrite Hcount. apply In_update in Hx.
    destruct Hx as [y [Hy [[E ->]|[N ->]]]]; simpl.
    + rewrite E, Z.eqb_refl. 
      pose proof (count_consistent _ C y Hy) as Hc. rewrite E in Hc.
      specialize (Hcount (r_session_id r)). rewrite Z.eqb_refl in Hcount.
      unfold active_count in Hcount at 1. lia.
    + destruct (Z.eqb_spec (r_session_id r) (s_id y)); [congruence|].
      rewrite (count_consistent _ C y Hy). lia.
  - intros x Hx. apply In_update in Hx.
    destruct Hx as [y [Hy [[E ->]|[N ->]]]]; simpl; [|now apply C].
    pose proof (within_capacity _ C y Hy).
    pose proof (count_consistent _ C y Hy) as Hc.
    unfold active_count in Hc. lia.
  - intros x Hx. apply in_map_iff in Hx. destruct Hx as [y [<- Hy]].
    unfold at_key. destruct (r_id y =? r_id r); simpl; now apply C.
Qed.

Lemma step_consistent st op :
  consistent st -> consistent (step timestamp_in st op).
Proof.
  destruct op; simpl.
  - apply CreateSession_consistent.
  - apply UpdateSession_consistent.
  - apply DeleteSession_consistent.
  - apply CreateReservation_consistent.
  - apply CancelReservation_consistent.
Qed.

Lemma run_consistent ops : forall st,
  consistent st -> consistent (run timestamp_in st ops).
Proof.
  induction ops as [|op ops IH]; simpl; intros st C; [exact C|].
  apply IH, step_consistent, C.
Qed.

(** Every store that a history of calls reaches from the empty database
    is consistent. *)
Lemma reachable_consistent ops :
  consistent (run timestamp_in empty_store ops).
Proof. apply run_consistent, empty_consistent. Qed.

End Preservation.

(* ===================================================================== *)
(** * The gateway's status codes *)
(* ===================================================================== *)

(** C5, as the code has it: at the REST boundary [handleGrpcError] answers
    NotFound with 404, AlreadyExists with 409 and PermissionDenied with 403;
    every other error of the session service, InvalidArgument,
    ResourceExhausted, FailedPrecondition and Internal among them, is
    answered with 500, whatever the success status of the route. *)
Theorem handleGrpcError_status (c : Code) :
  gateway.status (gateway.handleGrpcError (codes.number c))
  = match c with
    | codes.NotFound => 404
    | codes.AlreadyExists => 409
    | codes.PermissionDenied => 403
    | _ => 500
    end
  /\ forall (A : Type) (success : Z),
       gateway.reply success (@Err A c)
       = gateway.status (gateway.handleGrpcError (codes.number c)).
Proof. split; [destruct c; reflexivity | reflexivity]. Qed.

(** C5 fails as stated: the gateway answers InvalidArgument with 500, not
    400, and ResourceExhausted with 500, neither 409 nor 429. *)
Lemma handleGrpcError_not_400_429 :
  gateway.status (gateway.handleGrpcError
                    (codes.number codes.InvalidArgument)) <> 400
  /\ gateway.status (gateway.handleGrpcError
                       (codes.number codes.ResourceExhausted)) <> 409
  /\ gateway.status (gateway.handleGrpcError
                       (codes.number codes.ResourceExhausted)) <> 429.
Proof. repeat split; discriminate. Qed.

(* ===================================================================== *)
(** * CreateSession *)
(* ===================================================================== *)

Lemma bind_text_clean (params : list string) :
  (forall s, In s params -> has_nul s = false) -> bind_text params = true.
Proof.
  intros H. unfold bind_text. apply negb_true_iff.
  destruct (existsb has_nul params) eqn:E; [|reflexivity].
  apply existsb_exists in E. destruct E as [s [Hin Hs]].
  rewrite (H s Hin) in Hs. discriminate.
Qed.

Section CreateSessionClaims.

Variable timestamp_in : Z -> string -> option Z.

(** The outcomes of [CreateSession] for a request that passes the
    validation: a stored session, or the store's refusal. *)
Lemma CreateSession_valid_cases st now req :
  valid_request req ->
  CreateSession timestamp_in st now req
  = match insert_session timestamp_in st now (pb.Title req)
            (pb.Description req) (pb.CoachId req) "Coach Name"
            (pb.Capacity req) (pb.StartTime req) (pb.EndTime req)
            (pb.Location req) (pb.SessionType req)
            (pb.DifficultyLevel req) with
    | (st', inl _) => (st', Err codes.Internal)
    | (st', inr row) =>
        (st', Ok {| pb.Session.Id := Sprint (s_id row);
                    pb.Session.Title := pb.Title req;
                    pb.Session.Description := pb.Description req;
                    pb.Session.CoachId := pb.CoachId req;
                    pb.Session.CoachName := "Coach Name";
                    pb.Session.Capacity := pb.Capacity req;
                    pb.Session.ReservedSpots := 0;
                    pb.Session.StartTime := pb.StartTime req;
                    pb.Session.EndTime := pb.EndTime req;
                    pb.Session.Location := pb.Location req;
                    pb.Session.SessionType := pb.SessionType req;
                    pb.Session.DifficultyLevel := pb.DifficultyLevel req;
                    pb.Session.IsCancelled := false;
                    pb.Session.CreatedAt := formatTimestamp (s_created_at row);
                    pb.Session.UpdatedAt := formatTimestamp (s_updated_at row) |})
    end.
Proof.
  intros V. apply validation_passes in V.
  unfold CreateSession. rewrite V. reflexivity.
Qed.

Lemma insert_session_storable st now req t0 t1 :
  1 <= pb.Capacity req -> storable req ->
  timestamp_in now (pb.StartTime req) = Some t0 ->
  timestamp_in now (pb.EndTime req) = Some t1 ->
  insert_session timestamp_in st now (pb.Title req) (pb.Description req)
    (pb.CoachId req) "Coach Name" (pb.Capacity req) (pb.StartTime req)
    (pb.EndTime req) (pb.Location req) (pb.SessionType req)
    (pb.DifficultyLevel req)
  = (with_session (created_row st now req t0 t1) st,
     inr (created_row st now req t0 t1)).
Proof.
  intros Hc (Ht & Hd & Hi & Hcap & Hs & He & Hl & Hy & Hv) H0 H1.
  unfold insert_session.
  rewrite bind_text_clean.
  - rewrite int4_in_range by lia. rewrite H0, H1.
    rewrite (varchar_fits _ _ Ht), (varchar_fits _ _ Hi),
      (varchar_fits _ _ Hl), (varchar_fits _ _ Hy), (varchar_fits _ _ Hv).
    reflexivity.
  - destruct Ht, Hi, Hl, Hy, Hv. simpl.
    intros s [<-|[<-|[<-|[<-|[<-|[<-|[<-|[<-|[<-|[]]]]]]]]]]; auto.
Qed.

(** C8, as the code has it: a valid request (all required fields
    present, capacity at least 1) that the store accepts, its two times
    being timestamps for the store and its texts fitting their columns,
    is persisted as a session with a reserved count of 0; the reply
    carries the id that the store assigned, which no other session has,
    the creation and update timestamps, and the submitted values.  A
    valid request that the store refuses fails with Internal and no
    session is persisted. *)
Theorem CreateSession_valid_request st now req :
  valid_request req ->
  (forall t0 t1,
     storable req ->
     timestamp_in now (pb.StartTime req) = Some t0 ->
     timestamp_in now (pb.EndTime req) = Some t1 ->
     let row := created_row st now req t0 t1 in
     let reply := created_reply st now req in
     CreateSession timestamp_in st now req = (with_session row st, Ok reply)
     /\ s_reserved_spots row = 0
     /\ pb.Session.ReservedSpots reply = 0
     /\ pb.Session.Id reply = Sprint (s_id row)
     /\ (consistent st -> ~ In (s_id row) (map s_id (sessions st)))
     /\ pb.Session.CreatedAt reply = formatTimestamp (s_created_at row)
     /\ pb.Session.UpdatedAt reply = formatTimestamp (s_updated_at row)
     /\ (pb.Session.Title reply, pb.Session.Description reply,
         pb.Session.CoachId reply, pb.Session.Capacity reply,
         pb.Session.StartTime reply, pb.Session.EndTime reply,
         pb.Session.Location reply, pb.Session.SessionType reply,
         pb.Session.DifficultyLevel reply)
        = (pb.Title req, pb.Description req, pb.CoachId req,
           pb.Capacity req, pb.StartTime req, pb.EndTime req,
           pb.Location req, pb.SessionType req, pb.DifficultyLevel req))
  /\ (forall st' c,
        CreateSession timestamp_in st now req = (st', Err c) ->
        c = codes.Internal /\ sessions st' = sessions st
        /\ reservations st' = reservations st).
Proof.
  intros V. split.
  - intros t0 t1 S H0 H1 row reply.
    rewrite (CreateSession_valid_cases _ _ _ V).
    rewrite (insert_session_storable st now req t0 t1 (proj2 V) S H0 H1).
    repeat split.
    intros C Hin. apply in_map_iff in Hin. destruct Hin as [s [E Hin]].
    apply (session_ids_drawn _ C) in Hin. simpl in E. lia.
  - intros st' c. rewrite (CreateSession_valid_cases _ _ _ V).
    destruct (insert_session _ _ _ _ _ _ _ _ _ _ _ _ _) as [st1 [e|row]] eqn:I;
      intros E; inversion E; subst.
    apply insert_session_refused in I. tauto.
Qed.

(** C4, as the code has it: a request in which a required field is empty
    or the capacity is less than 1 fails with InvalidArgument and the
    store is as before; the two times are not compared, so that a request
    with its required fields and a capacity of at least 1 is never
    refused as InvalidArgument, whatever the order of its times. *)
Theorem CreateSession_validation st now req :
  (pb.Title req = "" \/ pb.CoachId req = "" \/ pb.Capacity req < 1 \/
   pb.StartTime req = "" \/ pb.EndTime req = "" \/ pb.Location req = "" \/
   pb.SessionType req = "" \/ pb.DifficultyLevel req = "" ->
   CreateSession timestamp_in st now req = (st, Err codes.InvalidArgument))
  /\ (valid_request req ->
      snd (CreateSession timestamp_in st now req)
      <> Err codes.InvalidArgument).
Proof.
  split.
  - intros H. unfold CreateSession.
    match goal with |- context [if ?b then _ else _] => destruct b eqn:V end;
      [reflexivity|].
    apply validation_passes in V.
    destruct V as [(? & ? & ? & ? & ? & ? & ?) ?].
    intuition (try congruence; try lia).
  - intros V. rewrite (CreateSession_valid_cases _ _ _ V).
    destruct (insert_session _ _ _ _ _ _ _ _ _ _ _ _ _) as [st1 [e|row]];
      simpl; discriminate.
Qed.

(** C10: whenever [CreateSession] creates a session, the stored row and
    the reply carry the coach name "Coach Name", whatever the request,
    its coach_id included. *)
Theorem CreateSession_coach_name st now req st' reply :
  CreateSession timestamp_in st now req = (st', Ok reply) ->
  pb.Session.CoachName reply = "Coach Name"
  /\ exists row,
       sessions st' = row :: sessions st
       /\ pb.Session.Id reply = Sprint (s_id row)
       /\ s_coach_name row = "Coach Name".
Proof.
  unfold CreateSession.
  match goal with |- context [if ?b then _ else _] => destruct b end;
    [discriminate|].
  destruct (insert_session _ _ _ _ _ _ _ _ _ _ _ _ _) as [st1 [e|row]] eqn:I;
    intros E; inversion E; subst; clear E.
  split; [reflexivity|]. exists row.
  apply insert_session_stored in I.
  destruct I as (-> & _ & _ & _ & _ & _ & _ & Hn).
  split; [reflexivity|]. split; [reflexivity|].
  change (varchar 255 "Coach Name") with (Some "Coach Name") in Hn.
  congruence.
Qed.

End CreateSessionClaims.

(** ** The claims on the documented request *)

Ltac text_facts :=
  repeat match goal with
         | |- _ /\ _ => split
         | |- _ <> _ => discriminate
         | |- fits _ _ => split
         | |- _ = false => reflexivity
         | |- (_ <= _)%nat => vm_compute; lia
         | |- _ <= _ => vm_compute; discriminate
         end.

Lemma yoga_valid : valid_request example.yoga.
Proof. unfold valid_request, required_fields_present. text_facts. Defined.

Lemma yoga_storable : storable example.yoga.
Proof. unfold storable. text_facts. Defined.

(** The documented request is valid and storable, and is stored with a
    reserved count of 0 under the id 1. *)
Lemma CreateSession_valid_request_witness :
  valid_request example.yoga /\ storable example.yoga /\
  CreateSession iso8601_in empty_store example.noon example.yoga
  = (with_session
       (created_row empty_store example.noon example.yoga
          example.eight example.nine) empty_store,
     Ok (created_reply empty_store example.noon example.yoga))
  /\ pb.Session.Id (created_reply empty_store example.noon example.yoga) = "1"
  /\ ~ In 1 (map s_id (sessions empty_store)).
Proof.
  split; [exact yoga_valid|]. split; [exact yoga_storable|].
  destruct (proj1 (CreateSession_valid_request iso8601_in empty_store
                     example.noon example.yoga yoga_valid)
              example.eight example.nine yoga_storable eq_refl eq_refl)
    as (E & _ & _ & I & F & _).
  split; [exact E|]. split; [exact I|]. exact (F empty_consistent).
Defined.

(** C8 fails as stated: the documented request with a title of 256 letters
    has every required field and a capacity of 15, and [CreateSession]
    answers Internal and persists nothing, the title being too long for
    its column. *)
Lemma CreateSession_long_title_refused :
  valid_request (example.with_title example.long_title example.yoga)
  /\ snd (CreateSession iso8601_in empty_store example.noon
            (example.with_title example.long_title example.yoga))
     = Err codes.Internal
  /\ sessions (fst (CreateSession iso8601_in empty_store example.noon
                      (example.with_title example.long_title example.yoga)))
     = [].
Proof.
  split.
  - unfold valid_request, required_fields_present. text_facts.
  - split; vm_compute; reflexivity.
Qed.

(** A request without a title is refused; the documented one is not. *)
Lemma CreateSession_validation_witness :
  CreateSession iso8601_in empty_store example.noon
    (example.with_title "" example.yoga)
  = (empty_store, Err codes.InvalidArgument)
  /\ snd (CreateSession iso8601_in empty_store example.noon example.yoga)
     <> Err codes.InvalidArgument.
Proof.
  split.
  - apply (proj1 (CreateSession_validation iso8601_in empty_store
                    example.noon (example.with_title "" example.yoga))).
    left. reflexivity.
  - apply (proj2 (CreateSession_validation iso8601_in empty_store
                    example.noon example.yoga)).
    exact yoga_valid.
Defined.

(** C4 fails as stated: the documented request with its two times
    exchanged ends an hour before it starts, and [CreateSession] stores it
    and replies with the session. *)
Lemma CreateSession_backwards_accepted :
  ends_before_it_starts iso8601_in example.noon example.backwards
  /\ CreateSession iso8601_in empty_store example.noon example.backwards
     = (with_session
          (created_row empty_store example.noon example.backwards
             example.nine example.eight) empty_store,
        Ok (created_reply empty_store example.noon example.backwards))
  /\ snd (CreateSession iso8601_in empty_store example.noon
            example.backwards) <> Err codes.InvalidArgument.
Proof.
  split.
  - exists example.nine, example.eight.
    split; [reflexivity|]. split; [reflexivity|]. vm_compute. discriminate.
  - split; [vm_compute; reflexivity | vm_compute; discriminate].
Qed.

(** The session of the documented request has the coach name "Coach Name",
    not its coach_id "coach-7". *)
Lemma CreateSession_coach_name_witness :
  CreateSession iso8601_in empty_store example.noon example.yoga
  = (example.one_session, Ok (created_reply empty_store example.noon
                                example.yoga))
  /\ pb.Session.CoachName (created_reply empty_store example.noon example.yoga)
     = "Coach Name"
  /\ exists row,
       sessions example.one_session = row :: sessions empty_store
       /\ pb.Session.Id (created_reply empty_store example.noon example.yoga)
          = Sprint (s_id row)
       /\ s_coach_name row = "Coach Name".
Proof.
  assert (E : CreateSession iso8601_in empty_store example.noon example.yoga
              = (example.one_session,
                 Ok (created_reply empty_store example.noon example.yoga)))
    by reflexivity.
  split; [exact E|].
  exact (CreateSession_coach_name iso8601_in _ _ _ _ _ E).
Defined.

(* ===================================================================== *)
(** * Reservations: admission *)
(* ===================================================================== *)

Lemma open_at_check (now : Z) (s : SessionRow) :
  open_at now s -> s_is_cancelled s || (s_end_time s <? now) = false.
Proof.
  intros [Hc He]. rewrite Hc. simpl. apply Z.ltb_ge. exact He.
Qed.

Lemma NoDup_map_injective {A B : Type} (f : A -> B) (l : list A) (x y : A) :
  NoDup (map f l) -> In x l -> In y l -> f x = f y -> x = y.
Proof.
  induction l as [|z l IH]; simpl; intros Hnd Hx Hy E; [contradiction|].
  inversion Hnd as [|? ? Hz Hnd']; subst.
  destruct Hx as [->|Hx], Hy as [->|Hy]; auto.
  - exfalso. apply Hz. rewrite E. now apply in_map.
  - exfalso. apply Hz. rewrite <- E. now apply in_map.
Qed.

Lemma find_at_key {A : Type} (key : A -> Z) (id : Z) (f : A -> A)
    (l : list A) :
  (forall y, key y = id -> key (f y) = id) ->
  find (fun y => key y =? id) (map (at_key key id f) l)
  = option_map f (find (fun y => key y =? id) l).
Proof.
  intros Hf. induction l as [|x l IH]; simpl; [reflexivity|].
  rewrite (key_at_key key id f x Hf).
  destruct (key x =? id) eqn:E; [|exact IH].
  simpl. unfold at_key. rewrite E. reflexivity.
Qed.

Lemma active_for_exists (id : Z) (user : string) (l : list ReservationRow)
    (r : ReservationRow) :
  In r l -> r_session_id r = id -> r_user_id r = user ->
  r_status r = confirmed -> existsb (active_for id user) l = true.
Proof.
  intros Hin <- <- Hst. apply existsb_exists. exists r.
  split; [assumption|]. unfold active_for, same_pair.
  now rewrite Z.eqb_refl, String.eqb_refl, Hst.
Qed.

Lemma active_for_none (id : Z) (user : string) (l : list ReservationRow) :
  (forall r, In r l -> r_session_id r = id -> r_user_id r = user ->
             r_status r = cancelled) ->
  existsb (active_for id user) l = false.
Proof.
  intros H. destruct (existsb _ l) eqn:E; [|reflexivity].
  apply existsb_exists in E. destruct E as [r [Hin Hr]].
  unfold active_for, same_pair in Hr.
  apply andb_prop in Hr. destruct Hr as [Hp Hc].
  apply andb_prop in Hp. destruct Hp as [Hs Hu].
  apply Z.eqb_eq in Hs. apply String.eqb_eq in Hu.
  rewrite (H r Hin Hs Hu) in Hc. discriminate.
Qed.

(** A session without active reservations has none of any user. *)
Lemma no_active_no_active_for (id : Z) (user : string) (st : Store) :
  active_count id st = 0 ->
  existsb (active_for id user) (reservations st) = false.
Proof.
  unfold active_count. intros H.
  destruct (filter (active id) (reservations st)) as [|x l] eqn:F;
    [|simpl in H; lia].
  apply active_for_none. intros r Hin Hs _.
  destruct (r_status r) eqn:S; [|reflexivity].
  assert (Hr : In r (filter (active id) (reservations st))).
  { apply filter_In. split; [assumption|].
    rewrite (active_confirmed _ _ S). now apply Z.eqb_eq. }
  rewrite F in Hr. contradiction.
Qed.

(** The admission of [CreateReservation]: an open session with a free
    place takes the reservation of a user who holds none of its rows. *)
Lemma CreateReservation_admits st now id user name s :
  find_session id st = Some s -> open_at now s ->
  existsb (active_for id user) (reservations st) = false ->
  s_reserved_spots s <> s_capacity s ->
  fits 100 user -> fits 255 name -> pair_taken id user st = false ->
  CreateReservation st now id user name
  = (admitted st now id user name, Ok (new_reservation st now id user name)).
Proof.
  intros F O A Q Hu Hn P. unfold CreateReservation.
  rewrite F, (open_at_check _ _ O), A.
  apply Z.eqb_neq in Q. rewrite Q.
  unfold insert_reservation.
  rewrite bind_text_clean.
  - rewrite (varchar_fits _ _ Hu), (varchar_fits _ _ Hn), P, F. reflexivity.
  - destruct Hu, Hn. simpl. intros x [<-|[<-|[]]]; assumption.
Qed.

(** A call that fails writes to neither table. *)
Lemma CreateReservation_fails st now id user name st' c :
  CreateReservation st now id user name = (st', Err c) ->
  sessions st' = sessions st /\ reservations st' = reservations st.
Proof.
  unfold CreateReservation. intros H.
  repeat (break_match H; try discriminate);
    try (inversion H; subst; auto; fail).
  inversion H; subst.
  match goal with I : insert_reservation _ _ _ _ _ = _ |- _ =>
    apply insert_reservation_refused in I; tauto end.
Qed.

(** No confirmed reservation is added while one of the pair is held. *)
Lemma CreateReservation_duplicate st now id user name r :
  In r (reservations st) -> r_session_id r = id -> r_user_id r = user ->
  r_status r = confirmed ->
  fst (CreateReservation st now id user name) = st
  /\ is_ok (snd (CreateReservation st now id user name)) = false
  /\ forall s, find_session id st = Some s -> open_at now s ->
       snd (CreateReservation st now id user name) = Err codes.AlreadyExists.
Proof.
  intros Hin Hs Hu Hc.
  pose proof (active_for_exists _ _ _ _ Hin Hs Hu Hc) as E.
  unfold CreateReservation.
  destruct (find_session id st) as [s|]; [|repeat split; discriminate].
  destruct (s_is_cancelled s || (s_end_time s <? now)) eqn:O.
  - repeat split. intros s' Hs' O'. inversion Hs'; subst.
    rewrite (open_at_check _ _ O') in O. discriminate.
  - rewrite E. repeat split.
Qed.

(** A full session takes no reservation. *)
Lemma CreateReservation_full st now id user name s :
  find_session id st = Some s -> s_reserved_spots s = s_capacity s ->
  fst (CreateReservation st now id user name) = st
  /\ is_ok (snd (CreateReservation st now id user name)) = false
  /\ (open_at now s ->
      existsb (active_for id user) (reservations st) = false ->
      snd (CreateReservation st now id user name)
      = Err codes.ResourceExhausted).
Proof.
  intros F Q. unfold CreateReservation. rewrite F.
  apply Z.eqb_eq in Q. rewrite Q.
  destruct (s_is_cancelled s || (s_end_time s <? now)) eqn:O.
  - repeat split. intros O'. rewrite (open_at_check _ _ O') in O.
    discriminate.
  - destruct (existsb _ _); repeat split. discriminate.
Qed.

Lemma filter_active_for_unique (id : Z) (user : string)
    (l : list ReservationRow) :
  NoDup (map pair_of l) ->
  (List.length (filter (active_for id user) l) <= 1)%nat.
Proof.
  induction l as [|x l IH]; simpl; intros Hnd; [lia|].
  inversion Hnd as [|? ? Hx Hnd']; subst.
  destruct (active_for id user x) eqn:E; [|auto].
  destruct (filter (active_for id user) l) as [|y l'] eqn:F; [simpl; lia|].
  exfalso. apply Hx.
  assert (Hy : In y (filter (active_for id user) l))
    by (rewrite F; now left).
  apply filter_In in Hy. destruct Hy as [Hy Ey].
  assert (P : forall r, active_for id user r = true -> pair_of r = (id, user)).
  { intros r Hr. unfold active_for, same_pair in Hr.
    apply andb_prop in Hr. destruct Hr as [Hp _].
    apply andb_prop in Hp. destruct Hp as [Hs Hu].
    apply Z.eqb_eq in Hs. apply String.eqb_eq in Hu.
    unfold pair_of. congruence. }
  rewrite (P x E), <- (P y Ey). now apply in_map.
Qed.

Section AdmissionClaims.

Variable timestamp_in : Z -> string -> option Z.

(** C1 (the handler is modelled from the specification): after every
    history of calls, taken in any interleaving, the active (confirmed)
    reservations of a session are as many as its reserved count and no
    more than its capacity; a session whose reserved count equals its
    capacity takes no reservation, and the call that reaches the capacity
    check (an open session, a user without an active reservation for it)
    fails with ResourceExhausted; and of two users who call for the one
    place of an open session, in either order, the first is given a
    confirmed reservation and the second fails with ResourceExhausted,
    the reserved count being 1. *)
Theorem capacity_never_exceeded :
  (forall ops s,
     let st := run timestamp_in empty_store ops in
     In s (sessions st) ->
     active_count (s_id s) st = s_reserved_spots s
     /\ active_count (s_id s) st <= s_capacity s)
  /\ (forall st now id user name s,
        find_session id st = Some s ->
        s_reserved_spots s = s_capacity s ->
        fst (CreateReservation st now id user name) = st
        /\ is_ok (snd (CreateReservation st now id user name)) = false
        /\ (open_at now s ->
            (forall r, In r (reservations st) -> r_session_id r = id ->
                       r_user_id r = user -> r_status r = cancelled) ->
            snd (CreateReservation st now id user name)
            = Err codes.ResourceExhausted))
  /\ (forall ops now now' id s a b name_a name_b,
        let st := run timestamp_in empty_store ops in
        find_session id st = Some s ->
        s_capacity s = 1 -> s_reserved_spots s = 0 ->
        open_at now s -> open_at now' s ->
        a <> b -> fits 100 a -> fits 255 name_a ->
        pair_taken id a st = false ->
        let st1 := admitted st now id a name_a in
        CreateReservation st now id a name_a
        = (st1, Ok (new_reservation st now id a name_a))
        /\ r_status (new_reservation st now id a name_a) = confirmed
        /\ CreateReservation st1 now' id b name_b
           = (st1, Err codes.ResourceExhausted)
        /\ active_count id st1 = 1
        /\ exists s1, find_session id st1 = Some s1
                      /\ s_reserved_spots s1 = 1).
Proof.
  split; [|split].
  - intros ops s st Hin.
    pose proof (reachable_consistent timestamp_in ops) as C.
    pose proof (count_consistent _ C s Hin).
    pose proof (within_capacity _ C s Hin).
    subst st. split; lia.
  - intros st now id user name s F Q.
    destruct (CreateReservation_full st now id user name s F Q)
      as (H1 & H2 & H3).
    repeat split; auto.
    intros O A. apply H3; [assumption|]. now apply active_for_none.
  - intros ops now now' id s a b name_a name_b st F Hcap Hres O O' Hab
      Ha Hn P st1.
    pose proof (reachable_consistent timestamp_in ops) as C.
    fold st in C.
    pose proof F as F'. apply find_key_In in F'. destruct F' as [Hin Hid].
    assert (Z0 : active_count id st = 0).
    { rewrite <- Hid, <- (count_consistent _ C s Hin). exact Hres. }
    assert (F1 : find_session id st1
                 = Some (set_reserved_spots (s_reserved_spots s + 1) s)).
    { unfold find_session, st1. simpl.
      rewrite find_at_key by (intros y E; exact E).
      unfold find_session in F. rewrite F. reflexivity. }
    assert (N1 : active_count id st1 = 1).
    { rewrite (active_count_insert id
                 (new_reservation st now id a name_a) st) by reflexivity.
      rewrite Z0. unfold active. simpl. now rewrite Z.eqb_refl. }
    split; [|split; [reflexivity|split; [|split; [exact N1|]]]].
    + apply (CreateReservation_admits st now id a name_a s); auto.
      * now apply no_active_no_active_for.
      * lia.
    + destruct (CreateReservation_full st1 now' id b name_b _ F1)
        as (H1 & _ & H3); [simpl; lia|].
      rewrite (surjective_pairing (CreateReservation st1 now' id b name_b)).
      rewrite H1, H3; [reflexivity | exact O' |].
      unfold st1. simpl. unfold active_for at 1, same_pair. simpl.
      destruct (String.eqb_spec a b) as [E|_]; [contradiction|].
      rewrite andb_false_r. simpl. now apply no_active_no_active_for.
    + eexists. split; [exact F1|]. simpl. lia.
Qed.

(** C2 (the handler is modelled from the specification, the table is that
    of [initDatabase]): after every history of calls, two confirmed
    reservations of one user for one session are the same row, so that the
    confirmed reservations of a (session, user) pair are at most one; and
    while the user holds a confirmed reservation for the session,
    [CreateReservation] fails and leaves the store as it is, with
    AlreadyExists when the call reaches that check, the session being
    open. *)
Theorem one_confirmed_reservation_per_pair :
  (forall ops r1 r2,
     let st := run timestamp_in empty_store ops in
     In r1 (reservations st) -> In r2 (reservations st) ->
     r_session_id r1 = r_session_id r2 -> r_user_id r1 = r_user_id r2 ->
     r_status r1 = confirmed -> r_status r2 = confirmed -> r1 = r2)
  /\ (forall ops id user,
        (List.length
           (confirmed_for id user (run timestamp_in empty_store ops))
         <= 1)%nat)
  /\ (forall st now id user name r,
        In r (reservations st) -> r_session_id r = id ->
        r_user_id r = user -> r_status r = confirmed ->
        fst (CreateReservation st now id user name) = st
        /\ is_ok (snd (CreateReservation st now id user name)) = false
        /\ forall s, find_session id st = Some s -> open_at now s ->
             snd (CreateReservation st now id user name)
             = Err codes.AlreadyExists).
Proof.
  split; [|split].
  - intros ops r1 r2 st H1 H2 Hs Hu _ _.
    pose proof (reachable_consistent timestamp_in ops) as C.
    apply (NoDup_map_injective pair_of (reservations st)); auto.
    + apply C.
    + unfold pair_of. congruence.
  - intros ops id user. apply filter_active_for_unique.
    apply (reachable_consistent timestamp_in ops).
  - intros st now id user name r. apply CreateReservation_duplicate.
Qed.

(** C7 (the handler is modelled from the specification): an update that
    sets the capacity of a session below its reserved count fails with
    FailedPrecondition and leaves the store, the session with it, as it
    was, whatever else the update provides. *)
Theorem UpdateSession_capacity_guard st now req s c :
  find_session (u_session_id req) st = Some s ->
  u_capacity req = Some c ->
  c < s_reserved_spots s ->
  UpdateSession timestamp_in st now req = (st, Err codes.FailedPrecondition).
Proof.
  intros F Hc Hlt. unfold UpdateSession. rewrite F, Hc.
  apply Z.ltb_lt in Hlt. rewrite Hlt. reflexivity.
Qed.

End AdmissionClaims.

(** The session for one person: alice is admitted, bob and carol are not. *)
Lemma capacity_never_exceeded_witness :
  let st := run iso8601_in empty_store example.solo_created in
  let st1 := admitted st example.noon 1 "alice" "Alice" in
  active_count 1 st <= 1
  /\ CreateReservation st example.noon 1 "alice" "Alice"
     = (st1, Ok (new_reservation st example.noon 1 "alice" "Alice"))
  /\ CreateReservation st1 example.noon 1 "bob" "Bob"
     = (st1, Err codes.ResourceExhausted)
  /\ snd (CreateReservation st1 example.noon 1 "carol" "Carol")
     = Err codes.ResourceExhausted.
Proof.
  intros st st1.
  destruct (capacity_never_exceeded iso8601_in) as (H1 & H2 & H3).
  pose (s := created_row empty_store example.noon example.solo
               example.eight example.nine).
  assert (O : open_at example.noon s)
    by (split; [reflexivity | vm_compute; discriminate]).
  assert (Hab : "alice" <> "bob") by discriminate.
  assert (Fa : fits 100 "alice") by text_facts.
  assert (Fn : fits 255 "Alice") by text_facts.
  destruct (H3 example.solo_created example.noon example.noon 1 s
              "alice" "bob" "Alice" "Bob" eq_refl eq_refl eq_refl O O Hab
              Fa Fn eq_refl) as (A & _ & B & _).
  split; [exact (proj2 (H1 example.solo_created s (or_introl eq_refl)))|].
  split; [exact A|]. split; [exact B|].
  refine (proj2 (proj2 (H2 st1 example.noon 1 "carol" "Carol"
                          (set_reserved_spots 1 s) eq_refl eq_refl)) _ _).
  - split; [reflexivity | vm_compute; discriminate].
  - intros r [<-|[]] _ E. discriminate E.
Defined.

(** Alice, who holds a confirmed reservation, is refused a second one. *)
Lemma one_confirmed_reservation_per_pair_witness :
  let st := run iso8601_in empty_store example.booked in
  (List.length (confirmed_for 1 "alice" st) <= 1)%nat
  /\ fst (CreateReservation st example.noon 1 "alice" "Alice") = st
  /\ snd (CreateReservation st example.noon 1 "alice" "Alice")
     = Err codes.AlreadyExists.
Proof.
  intros st.
  destruct (one_confirmed_reservation_per_pair iso8601_in) as (_ & H2 & H3).
  pose (r := new_reservation (run iso8601_in empty_store example.created)
               example.noon 1 "alice" "Alice").
  destruct (H3 st example.noon 1 "alice" "Alice" r (or_introl eq_refl)
              eq_refl eq_refl eq_refl) as (A & _ & B).
  split; [exact (H2 example.booked 1 "alice")|]. split; [exact A|].
  refine (B (set_reserved_spots 1
               (created_row empty_store example.noon example.yoga
                  example.eight example.nine)) eq_refl _).
  split; [reflexivity | vm_compute; discriminate].
Defined.

(** The yoga session with alice's reservation cannot shrink to no place. *)
Lemma UpdateSession_capacity_guard_witness :
  let st := run iso8601_in empty_store example.booked in
  0 < 1
  /\ UpdateSession iso8601_in st example.noon (example.resize 0)
     = (st, Err codes.FailedPrecondition).
Proof.
  intros st. split; [lia|].
  refine (UpdateSession_capacity_guard iso8601_in st example.noon
            (example.resize 0)
            (set_reserved_spots 1
               (created_row empty_store example.noon example.yoga
                  example.eight example.nine))
            0 eq_refl eq_refl _).
  simpl. lia.
Defined.

(* ===================================================================== *)
(** * Reservations: the rows through a history *)
(* ===================================================================== *)

Lemma CreateReservation_succeeds st now id user name st' row :
  CreateReservation st now id user name = (st', Ok row) ->
  reservations st' = row :: reservations st
  /\ reservations_id_seq st' = reservations_id_seq st + 1
  /\ r_id row = reservations_id_seq st + 1
  /\ r_session_id row = id /\ r_status row = confirmed.
Proof.
  unfold CreateReservation. intros H.
  repeat (break_match H; try discriminate).
  inversion H; subst; clear H.
  match goal with I : insert_reservation _ _ _ _ _ = _ |- _ =>
    apply insert_reservation_stored in I;
    destruct I as (-> & ? & ? & ? & ? & ?) end.
  simpl. auto.
Qed.

Lemma CancelReservation_succeeds st now id caller st' r' :
  CancelReservation st now id caller = (st', Ok r') ->
  exists r,
    find_reservation id st = Some r /\ r_status r = confirmed
    /\ r' = set_status cancelled now r
    /\ st' = update_session (r_session_id r)
               (fun s => set_reserved_spots (Z.max 0 (s_reserved_spots s - 1)) s)
               (update_reservation id (set_status cancelled now) st).
Proof.
  unfold CancelReservation. intros H.
  destruct (find_reservation id st) as [r|]; [|discriminate].
  destruct (negb _ && negb _); [discriminate|].
  destruct (r_status r) eqn:S; [|discriminate].
  inversion H; subst. exists r. auto.
Qed.

(** A call that fails leaves the reservations and their sequence's past. *)
Lemma CancelReservation_fails st now id caller st' c :
  CancelReservation st now id caller = (st', Err c) -> st' = st.
Proof.
  unfold CancelReservation. intros H.
  repeat (break_match H; try discriminate); inversion H; reflexivity.
Qed.

(** The store refuses a second row for a pair that a row holds. *)
Lemma insert_reservation_pair_held st now id user name r :
  In r (reservations st) -> r_session_id r = id ->
  varchar 100 user = Some (r_user_id r) ->
  exists st' e,
    insert_reservation st now id user name = (st', inl e)
    /\ sessions st' = sessions st /\ reservations st' = reservations st
    /\ (has_nul user = false -> fits 255 name -> e = unique_violation).
Proof.
  intros Hin Hs Hu. unfold insert_reservation.
  destruct (bind_text [user; name]) eqn:B.
  - rewrite Hu. destruct (varchar 255 name) as [name'|] eqn:N.
    + rewrite (pair_taken_true id (r_user_id r) st r Hin Hs eq_refl).
      eexists. eexists. repeat split.
    + eexists. eexists. repeat split.
      intros _ Hn. rewrite (varchar_fits _ _ Hn) in N. discriminate.
  - eexists. eexists. repeat split.
    intros Hz [Hn _]. unfold bind_text in B. simpl in B.
    rewrite Hz, Hn in B. discriminate.
Qed.


Section Histories.

Variable timestamp_in : Z -> string -> option Z.

Lemma CreateSession_reservations st now req :
  reservations (fst (CreateSession timestamp_in st now req)) = reservations st
  /\ reservations_id_seq (fst (CreateSession timestamp_in st now req))
     = reservations_id_seq st.
Proof.
  unfold CreateSession.
  match goal with |- context [if ?b then _ else _] => destruct b end;
    [auto|].
  destruct (insert_session _ _ _ _ _ _ _ _ _ _ _ _ _) as [st' [e|row]] eqn:I;
    simpl.
  - apply insert_session_refused in I. tauto.
  - apply insert_session_stored in I. destruct I as (-> & _). auto.
Qed.

Lemma UpdateSession_reservations st now req :
  reservations (fst (UpdateSession timestamp_in st now req)) = reservations st
  /\ reservations_id_seq (fst (UpdateSession timestamp_in st now req))
     = reservations_id_seq st.
Proof.
  unfold UpdateSession.
  destruct (find_session _ st) as [s|]; [|auto].
  match goal with |- context [if ?b then _ else _] => destruct b end;
    [auto|].
  destruct (updated_row _ _ _ _); auto.
Qed.

(** The sequence of [reservations] never goes back. *)
Lemma step_sequence st op :
  reservations_id_seq st <= reservations_id_seq (step timestamp_in st op).
Proof.
  destruct op; simpl.
  - rewrite (proj2 (CreateSession_reservations st now req)). lia.
  - rewrite (proj2 (UpdateSession_reservations st now req)). lia.
  - unfold DeleteSession. destruct (find_session _ st); simpl; lia.
  - destruct (CreateReservation st now session_id user_id user_name)
      as [st' [row|c]] eqn:E; simpl.
    + apply CreateReservation_succeeds in E. lia.
    + unfold CreateReservation in E.
      repeat (break_match E; try discriminate);
        inversion E; subst; try lia.
      match goal with I : insert_reservation _ _ _ _ _ = _ |- _ =>
        apply insert_reservation_refused in I; lia end.
  - destruct (CancelReservation st now reservation_id caller)
      as [st' [row|c]] eqn:E; simpl.
    + apply CancelReservation_succeeds in E.
      destruct E as (r & _ & _ & _ & ->). simpl. lia.
    + apply CancelReservation_fails in E. subst. lia.
Qed.

(** Where a row of the table after a call comes from: it is the row that
    the call has inserted, confirmed and with a new id, or a row of the
    table before the call, with its id and its (session, user) pair, and
    with its status unless the call has cancelled it. *)
Lemma step_reservation st op r' :
  In r' (reservations (step timestamp_in st op)) ->
  (r_id r' = reservations_id_seq st + 1 /\ r_status r' = confirmed)
  \/ exists r,
       In r (reservations st) /\ r_id r = r_id r'
       /\ pair_of r = pair_of r'
       /\ (r_status r' = r_status r
           \/ (r_status r = confirmed /\ r_status r' = cancelled)).
Proof.
  assert (Same : forall l, In r' l ->
            exists r, In r l /\ r_id r = r_id r' /\ pair_of r = pair_of r'
              /\ (r_status r' = r_status r
                  \/ (r_status r = confirmed /\ r_status r' = cancelled)))
    by (intros l H; exists r'; auto).
  destruct op; simpl.
  - rewrite (proj1 (CreateSession_reservations st now req)). auto.
  - rewrite (proj1 (UpdateSession_reservations st now req)). auto.
  - unfold DeleteSession. destruct (find_session _ st); simpl; auto.
    intros H. apply filter_In in H. right. apply Same. tauto.
  - destruct (CreateReservation st now session_id user_id user_name)
      as [st' [row|c]] eqn:E; simpl.
    + apply CreateReservation_succeeds in E.
      destruct E as (-> & _ & Hid & _ & Hst).
      intros [<-|H]; auto.
    + apply CreateReservation_fails in E. destruct E as [_ ->]. auto.
  - destruct (CancelReservation st now reservation_id caller)
      as [st' [row|c]] eqn:E; simpl.
    + apply CancelReservation_succeeds in E.
      destruct E as (r & _ & _ & _ & ->). simpl.
      intros H. apply in_map_iff in H. destruct H as [y [<- Hy]].
      right. exists y. unfold at_key.
      destruct (r_id y =? reservation_id); simpl; auto.
      repeat split; auto. destruct (r_status y); auto.
    + apply CancelReservation_fails in E. subst. auto.
Qed.



(** The sequence of [sessions] never goes back. *)
Lemma step_session_sequence st op :
  sessions_id_seq st <= sessions_id_seq (step timestamp_in st op).
Proof.
  destruct op; simpl.
  - unfold CreateSession.
    match goal with |- context [if ?b then _ else _] => destruct b end;
      [simpl; lia|].
    destruct (insert_session _ _ _ _ _ _ _ _ _ _ _ _ _) as [st' [e|row]] eqn:I;
      simpl.
    + apply insert_session_refused in I. lia.
    + apply insert_session_stored in I. destruct I as (-> & _). simpl. lia.
  - unfold UpdateSession.
    destruct (find_session _ st) as [s|]; [|simpl; lia].
    match goal with |- context [if ?b then _ else _] => destruct b end;
      [simpl; lia|].
    destruct (updated_row _ _ _ _); simpl; lia.
  - unfold DeleteSession. destruct (find_session _ st); simpl; lia.
  - unfold CreateReservation.
    repeat match goal with
           | |- context [match ?x with _ => _ end] => destruct x eqn:?
           end; simpl; try lia.
    + match goal with I : insert_reservation _ _ _ _ _ = _ |- _ =>
        apply insert_reservation_refused in I; lia end.
    + match goal with I : insert_reservation _ _ _ _ _ = _ |- _ =>
        apply insert_reservation_stored in I; destruct I as (-> & _) end.
      simpl. lia.
  - unfold CancelReservation.
    repeat match goal with
           | |- context [match ?x with _ => _ end] => destruct x eqn:?
           end; simpl; lia.
Qed.



End Histories.

(* ===================================================================== *)
(** * Reservations: cancellation and the unique pair *)
(* ===================================================================== *)

Section CancellationClaims.

Variable timestamp_in : Z -> string -> option Z.

(** A settled reservation stays settled. *)
Lemma step_settled id st op :
  settled id st -> settled id (step timestamp_in st op).
Proof.
  intros [Hseq Hst]. split.
  - pose proof (step_sequence timestamp_in st op). lia.
  - intros r' Hin Hid.
    destruct (step_reservation timestamp_in st op r' Hin)
      as [[E _]|(r & Hr & Er & _ & [S|[S _]])].
    + lia.
    + rewrite S. apply Hst; [assumption | congruence].
    + rewrite (Hst r Hr) in S; [discriminate | congruence].
Qed.

Lemma run_settled id ops : forall st,
  settled id st -> settled id (run timestamp_in st ops).
Proof.
  induction ops as [|op ops IH]; simpl; intros st H; [exact H|].
  apply IH, step_settled, H.
Qed.

(** Cancelling what is cancelled changes nothing, whoever asks. *)
Lemma CancelReservation_cancelled st now id caller :
  (forall r, In r (reservations st) -> r_id r = id -> r_status r = cancelled) ->
  fst (CancelReservation st now id caller) = st
  /\ is_ok (snd (CancelReservation st now id caller)) = false.
Proof.
  intros H. unfold CancelReservation.
  destruct (find_reservation id st) as [r|] eqn:F; [|auto].
  apply find_key_In in F. destruct F as [Hin Hid].
  rewrite (H r Hin Hid).
  destruct (negb _ && negb _); auto.
Qed.

(** C6 (the handler is modelled from the specification): cancelling a
    reservation that is cancelled changes nothing in the store, so that the
    count of its session is as before, and fails, with FailedPrecondition
    for the owner and for an admin, who pass the permission check; through
    every call a reservation keeps its status or goes from confirmed to
    cancelled; and once a cancellation has succeeded, no later
    cancellation of that reservation succeeds or changes the store, so that
    the count is taken from once. *)
Theorem cancelled_is_final :
  (forall st now id caller r,
     find_reservation id st = Some r -> r_status r = cancelled ->
     fst (CancelReservation st now id caller) = st
     /\ is_ok (snd (CancelReservation st now id caller)) = false
     /\ (subject caller = r_user_id r \/ is_admin caller = true ->
         snd (CancelReservation st now id caller)
         = Err codes.FailedPrecondition))
  /\ (forall ops op r r',
        let st := run timestamp_in empty_store ops in
        In r (reservations st) ->
        In r' (reservations (step timestamp_in st op)) ->
        r_id r' = r_id r ->
        r_status r' = r_status r
        \/ (r_status r = confirmed /\ r_status r' = cancelled))
  /\ (forall ops now id caller st1 r1,
        CancelReservation (run timestamp_in empty_store ops) now id caller
        = (st1, Ok r1) ->
        forall ops' now' caller',
          let st2 := run timestamp_in st1 ops' in
          fst (CancelReservation st2 now' id caller') = st2
          /\ is_ok (snd (CancelReservation st2 now' id caller')) = false).
Proof.
  split; [|split].
  - intros st now id caller r F S. unfold CancelReservation. rewrite F, S.
    destruct (negb (String.eqb (subject caller) (r_user_id r))
              && negb (is_admin caller)) eqn:P.
    + repeat split. intros [E|E].
      * apply String.eqb_eq in E. rewrite E in P. discriminate.
      * rewrite E, andb_false_r in P. discriminate.
    + repeat split.
  - intros ops op r r' st Hr Hr' E.
    pose proof (reachable_consistent timestamp_in ops) as C. fold st in C.
    destruct (step_reservation timestamp_in st op r' Hr')
      as [[E' _]|(r0 & H0 & E0 & _ & T)].
    + apply (reservation_ids_drawn _ C) in Hr. lia.
    + assert (r0 = r) as ->; [|exact T].
      apply (NoDup_map_injective r_id (reservations st)); auto.
      * apply C.
      * congruence.
  - intros ops now id caller st1 r1 H ops' now' caller' st2.
    apply CancelReservation_cancelled.
    apply (run_settled id ops' st1).
    pose proof (reachable_consistent timestamp_in ops) as C.
    apply CancelReservation_succeeds in H.
    destruct H as (r & F & S & _ & ->).
    apply find_key_In in F. destruct F as [Hin Hid].
    split; simpl.
    + apply (reservation_ids_drawn _ C) in Hin. lia.
    + intros x Hx Ex. apply in_map_iff in Hx. destruct Hx as [y [<- Hy]].
      unfold at_key in *. destruct (Z.eqb_spec (r_id y) id); [reflexivity|].
      contradiction.
Qed.



End CancellationClaims.

(** ** The claims on the yoga session *)

(** Alice's reservation, once cancelled, is not cancelled again, by her or
    by anyone after any further calls. *)
Lemma cancelled_is_final_witness :
  let st := run iso8601_in empty_store example.booked in
  let st1 := run iso8601_in empty_store example.booked_and_cancelled in
  CancelReservation st1 example.noon 1 example.alice
  = (st1, Err codes.FailedPrecondition)
  /\ fst (CancelReservation st1 example.noon 1 example.root) = st1
  /\ is_ok (snd (CancelReservation
                   (run iso8601_in st1
                      [OpCreateReservation example.noon 1 "bob" "Bob"])
                   example.noon 1 example.root)) = false
  /\ (cancelled = confirmed \/ confirmed = confirmed /\ cancelled = cancelled).
Proof.
  intros st st1.
  destruct (cancelled_is_final iso8601_in) as (H1 & H2 & H3).
  pose (r := set_status cancelled example.noon
               (new_reservation
                  (run iso8601_in empty_store example.created)
                  example.noon 1 "alice" "Alice")).
  destruct (H1 st1 example.noon 1 example.alice r eq_refl eq_refl)
    as (A & _ & B).
  split.
  - rewrite (surjective_pairing
               (CancelReservation st1 example.noon 1 example.alice)).
    rewrite A, (B (or_introl eq_refl)). reflexivity.
  - split; [|split].
    + exact (proj1 (H1 st1 example.noon 1 example.root r eq_refl eq_refl)).
    + exact (proj2 (H3 example.booked example.noon 1 example.alice st1 r
                      eq_refl
                      [OpCreateReservation example.noon 1 "bob" "Bob"]
                      example.noon example.root)).
    + exact (H2 example.booked
               (OpCancelReservation example.noon 1 example.alice)
               (new_reservation
                  (run iso8601_in empty_store example.created)
                  example.noon 1 "alice" "Alice")
               r (or_introl eq_refl) (or_introl eq_refl) eq_refl).
Defined.




(* ===================================================================== *)
(** * The unique constraint of [reservations] *)
(* ===================================================================== *)

Lemma pair_free (id : Z) (user : string) (st : Store) :
  (forall r, In r (reservations st) -> pair_of r <> (id, user)) ->
  pair_taken id user st = false.
Proof.
  intros H. unfold pair_taken.
  destruct (existsb _ _) eqn:E; [|reflexivity].
  apply existsb_exists in E. destruct E as [r [Hin Hr]].
  unfold same_pair in Hr. apply andb_prop in Hr. destruct Hr as [Hs Hu].
  apply Z.eqb_eq in Hs. apply String.eqb_eq in Hu.
  exfalso. apply (H r Hin). unfold pair_of. congruence.
Qed.

(** C9: on the table that [initDatabase] creates, the insertion of a row
    whose (session_id, user_id) pair a row of the table holds is refused,
    whatever the status of that row, a cancelled one included: both tables
    stay as they are, and the refusal is the violation of the unique
    constraint when the values of the new row are in order.  An insertion
    keeps the pairs of the table distinct, and a pair is only taken again
    once no row holds it: the row for a user of an existing session is
    then stored. *)
Theorem one_row_per_pair st now id user name :
  (forall r,
     In r (reservations st) -> r_session_id r = id ->
     varchar 100 user = Some (r_user_id r) ->
     exists st' e,
       insert_reservation st now id user name = (st', inl e)
       /\ sessions st' = sessions st /\ reservations st' = reservations st
       /\ (has_nul user = false -> fits 255 name -> e = unique_violation))
  /\ (NoDup (map pair_of (reservations st)) ->
      NoDup (map pair_of
               (reservations (fst (insert_reservation st now id user name)))))
  /\ (fits 100 user -> fits 255 name ->
      (exists s, find_session id st = Some s) ->
      (forall r, In r (reservations st) -> pair_of r <> (id, user)) ->
      exists st' row,
        insert_reservation st now id user name = (st', inr row)
        /\ reservations st' = row :: reservations st
        /\ pair_of row = (id, user) /\ r_status row = confirmed).
Proof.
  split; [|split].
  - intros r. apply insert_reservation_pair_held.
  - intros Hnd.
    destruct (insert_reservation st now id user name) as [st' [e|row]] eqn:I;
      simpl.
    + apply insert_reservation_refused in I. destruct I as (_ & -> & _).
      exact Hnd.
    + apply insert_reservation_stored in I.
      destruct I as (-> & _ & Hs & _ & _ & Hfree). simpl.
      constructor; [|exact Hnd]. unfold pair_of at 1. rewrite Hs.
      now apply pair_taken_In.
  - intros Hu Hn [s F] Hfree. unfold insert_reservation.
    rewrite bind_text_clean.
    + rewrite (varchar_fits _ _ Hu), (varchar_fits _ _ Hn).
      rewrite (pair_free _ _ _ Hfree), F.
      eexists. eexists. repeat split.
    + destruct Hu, Hn. simpl. intros x [<-|[<-|[]]]; assumption.
Qed.

(** The cancelled row of alice keeps a new row of hers out of the table;
    bob, who has no row, gets his. *)
Lemma one_row_per_pair_witness :
  let st := run iso8601_in empty_store example.booked_and_cancelled in
  let r := set_status cancelled example.noon
             (new_reservation (run iso8601_in empty_store example.created)
                example.noon 1 "alice" "Alice") in
  In r (reservations st) /\ r_status r = cancelled
  /\ (exists st',
        insert_reservation st example.noon 1 "alice" "Alice"
        = (st', inl unique_violation)
        /\ reservations st' = reservations st)
  /\ NoDup (map pair_of
              (reservations
                 (fst (insert_reservation st example.noon 1 "bob" "Bob"))))
  /\ exists st' row,
       insert_reservation st example.noon 1 "bob" "Bob" = (st', inr row)
       /\ reservations st' = row :: reservations st
       /\ pair_of row = (1, "bob") /\ r_status row = confirmed.
Proof.
  intros st r.
  assert (Hin : In r (reservations st)) by (left; reflexivity).
  split; [exact Hin|]. split; [reflexivity|]. split; [|split].
  - destruct (proj1 (one_row_per_pair st example.noon 1 "alice" "Alice")
                r Hin eq_refl eq_refl)
      as (st' & e & I & _ & R & U).
    exists st'. split; [|exact R].
    rewrite I, (U eq_refl); [reflexivity|]. text_facts.
  - apply (proj1 (proj2 (one_row_per_pair st example.noon 1 "bob" "Bob"))).
    simpl. constructor; [intros []|constructor].
  - apply (proj2 (proj2 (one_row_per_pair st example.noon 1 "bob" "Bob"))).
    + text_facts.
    + text_facts.
    + eexists. reflexivity.
    + intros x [<-|[]]. discriminate.
Defined.

(* ===================================================================== *)
(** * The decimal text of an id *)
(* ===================================================================== *)

Lemma to_int_proper (z : Z) :
  Z.to_int z <> Decimal.Pos Decimal.Nil /\ Z.to_int z <> Decimal.Neg Decimal.Nil.
Proof.
  destruct z; simpl; split; try discriminate.
  - intros E. inversion E as [E'].
    now apply DecimalPos.Unsigned.to_uint_nonnil in E'.
  - intros E. inversion E as [E'].
    now apply DecimalPos.Unsigned.to_uint_nonnil in E'.
Qed.

Lemma read_Sprint (z : Z) :
  NilZero.int_of_string (Sprint z) = Some (Z.to_int z).
Proof.
  unfold Sprint. destruct (to_int_proper z). now apply NilZero.isi.
Qed.

Lemma Sprint_injective (a b : Z) : Sprint a = Sprint b -> a = b.
Proof.
  intros E. pose proof (read_Sprint a) as Ha. rewrite E, read_Sprint in Ha.
  inversion Ha as [H]. rewrite <- (DecimalZ.of_to a), <- (DecimalZ.of_to b).
  now rewrite H.
Qed.

(** [decimal_in] reads what [fmt.Sprint] writes. *)
Lemma decimal_in_Sprint (z : Z) : decimal_in (Sprint z) = int4 z.
Proof.
  unfold decimal_in. now rewrite read_Sprint, DecimalZ.of_to.
Qed.



(* ===================================================================== *)
(** * Creating and reading sessions *)
(* ===================================================================== *)

Section SessionsRead.

Variable timestamp_in : Z -> string -> option Z.
Variable int4_in : string -> option Z.

(** The row of a successful insertion, column by column. *)
Lemma insert_session_columns st now title description coach_id coach_name
    capacity start_time end_time location session_type difficulty_level
    st' row :
  insert_session timestamp_in st now title description coach_id coach_name
    capacity start_time end_time location session_type difficulty_level
  = (st', inr row) ->
  varchar 255 title = Some (s_title row)
  /\ s_description row = description
  /\ varchar 100 coach_id = Some (s_coach_id row)
  /\ timestamp_in now start_time = Some (s_start_time row)
  /\ timestamp_in now end_time = Some (s_end_time row)
  /\ varchar 255 location = Some (s_location row)
  /\ varchar 100 session_type = Some (s_session_type row)
  /\ varchar 50 difficulty_level = Some (s_difficulty_level row)
  /\ capacity <= 2147483647.
Proof.
  unfold insert_session. intros H.
  repeat (break_match H; try discriminate).
  inversion H; subst; clear H. simpl.
  match goal with E : int4 _ = Some _ |- _ =>
    unfold int4 in E;
    destruct (Z.leb_spec (-2147483648) capacity);
    destruct (Z.leb_spec capacity 2147483647); try discriminate end.
  repeat split; auto.
Qed.

(** A successful [CreateSession], taken apart: the inserted row and the
    reply made of the request and of the row. *)
Lemma CreateSession_Ok st now req st' reply :
  CreateSession timestamp_in st now req = (st', Ok reply) ->
  valid_request req
  /\ exists row,
       insert_session timestamp_in st now (pb.Title req) (pb.Description req)
         (pb.CoachId req) "Coach Name" (pb.Capacity req) (pb.StartTime req)
         (pb.EndTime req) (pb.Location req) (pb.SessionType req)
         (pb.DifficultyLevel req) = (st', inr row)
       /\ reply =
          {| pb.Session.Id := Sprint (s_id row);
             pb.Session.Title := pb.Title req;
             pb.Session.Description := pb.Description req;
             pb.Session.CoachId := pb.CoachId req;
             pb.Session.CoachName := "Coach Name";
             pb.Session.Capacity := pb.Capacity req;
             pb.Session.ReservedSpots := 0;
             pb.Session.StartTime := pb.StartTime req;
             pb.Session.EndTime := pb.EndTime req;
             pb.Session.Location := pb.Location req;
             pb.Session.SessionType := pb.SessionType req;
             pb.Session.DifficultyLevel := pb.DifficultyLevel req;
             pb.Session.IsCancelled := false;
             pb.Session.CreatedAt := formatTimestamp (s_created_at row);
             pb.Session.UpdatedAt := formatTimestamp (s_updated_at row) |}.
Proof.
  unfold CreateSession.
  match goal with |- context [if ?b then _ else _] => destruct b eqn:V end;
    [discriminate|].
  apply validation_passes in V.
  destruct (insert_session _ _ _ _ _ _ _ _ _ _ _ _ _) as [st1 [e|row]] eqn:I;
    intros E; inversion E; subst; clear E.
  split; [exact V|]. exists row. auto.
Qed.

(** The two ends of [CreateSession]: a reply and one more row, under the
    next number of the sequence, or an error, InvalidArgument or Internal,
    and the rows as they were. *)
Lemma CreateSession_ends st now req :
  (exists reply row,
     snd (CreateSession timestamp_in st now req) = Ok reply
     /\ sessions (fst (CreateSession timestamp_in st now req))
        = row :: sessions st
     /\ s_id row = sessions_id_seq st + 1)
  \/ (sessions (fst (CreateSession timestamp_in st now req)) = sessions st
      /\ (snd (CreateSession timestamp_in st now req)
          = Err codes.InvalidArgument
          \/ snd (CreateSession timestamp_in st now req)
             = Err codes.Internal)).
Proof.
  unfold CreateSession.
  match goal with |- context [if ?b then _ else _] => destruct b end;
    [right; simpl; auto|].
  destruct (insert_session _ _ _ _ _ _ _ _ _ _ _ _ _) as [st1 [e|row]] eqn:I;
    simpl.
  - apply insert_session_refused in I. right. intuition.
  - apply insert_session_stored in I. destruct I as (-> & Hid & _).
    left. eexists. exists row. auto.
Qed.


(** X2: the three ends of [GetSession] and what the gateway's route
    answers.  A reply is a stored session whose id the store reads from the
    request's text, and the status is 200; a text without a NUL byte that
    the store reads as an id that no session has gives NotFound and 404; a
    text that the store does not read as an integer gives Internal and
    500. *)
Theorem GetSession_status st session_id :
  (forall got,
     GetSession int4_in st session_id = Ok got ->
     gateway.reply 200 (GetSession int4_in st session_id) = 200
     /\ exists s, In s (sessions st)
                  /\ int4_in session_id = Some (s_id s)
                  /\ pb.Session.Id got = Sprint (s_id s))
  /\ (forall id,
        has_nul session_id = false -> int4_in session_id = Some id ->
        (forall s, In s (sessions st) -> s_id s <> id) ->
        GetSession int4_in st session_id = Err codes.NotFound
        /\ gateway.reply 200 (GetSession int4_in st session_id) = 404)
  /\ (int4_in session_id = None ->
      GetSession int4_in st session_id = Err codes.Internal
      /\ gateway.reply 200 (GetSession int4_in st session_id) = 500).
Proof.
  unfold GetSession, select_session, bind_text. simpl.
  split; [|split].
  - intros got. destruct (has_nul session_id); simpl; [discriminate|].
    destruct (int4_in session_id) as [id|]; [|discriminate].
    destruct (find_session id st) as [s|] eqn:F; [|discriminate].
    intros E. inversion E; subst; clear E. split; [reflexivity|].
    apply find_key_In in F. destruct F as [Hin <-].
    exists s. auto.
  - intros id Hz Hin Hno. rewrite Hz, Hin. simpl.
    unfold find_session. rewrite (find_key_absent s_id id _ Hno). auto.
  - intros Hin. rewrite Hin. destruct (has_nul session_id); simpl; auto.
Qed.

(** X3: [CreateSession] leaves what is stored alone: the reservations are
    the same, every session is still there, and in a consistent store
    every session that [GetSession] found before the call it finds after
    it, with the same reply. *)
Theorem CreateSession_keeps_sessions st now req :
  let st' := fst (CreateSession timestamp_in st now req) in
  reservations st' = reservations st
  /\ (forall s, In s (sessions st) -> In s (sessions st'))
  /\ (consistent st ->
      forall session_id got,
        GetSession int4_in st session_id = Ok got ->
        GetSession int4_in st' session_id = Ok got).
Proof.
  intros st'.
  assert (Shape : sessions st' = sessions st
                  \/ exists row, sessions st' = row :: sessions st
                                 /\ s_id row = sessions_id_seq st + 1).
  { subst st'.
    destruct (CreateSession_ends st now req) as [(r & row & _ & H)|[H _]];
      [right; exists row; exact H | left; exact H]. }
  split; [|split].
  - apply (CreateSession_reservations timestamp_in st now req).
  - intros s Hs. destruct Shape as [->|(row & -> & _)]; simpl; auto.
  - intros C session_id got.
    unfold GetSession, select_session.
    destruct (bind_text [session_id]); [|discriminate].
    destruct (int4_in session_id) as [id|]; [|discriminate].
    destruct (find_session id st) as [s|] eqn:F; [|discriminate].
    intros E.
    assert (F' : find_session id st' = Some s).
    { unfold find_session in *.
      destruct Shape as [->|(row & -> & Hid)]; [exact F|]. simpl.
      pose proof F as F0. apply find_key_In in F0. destruct F0 as [Hs Hk].
      apply (session_ids_drawn _ C) in Hs.
      destruct (Z.eqb_spec (s_id row) id); [lia | exact F]. }
    rewrite F'. exact E.
Qed.

(** The sequence of [sessions] through a history of creations. *)
Lemma create_all_sequence calls : forall st,
  sessions_id_seq st <= sessions_id_seq (create_all timestamp_in st calls).
Proof.
  induction calls as [|[now req] calls IH]; simpl; intros st; [lia|].
  specialize (IH (fst (CreateSession timestamp_in st now req))).
  pose proof (step_session_sequence timestamp_in st (OpCreateSession now req))
    as H.
  simpl in H. unfold create_all in *. simpl in IH. lia.
Qed.

(** X4: the ids of two replies of [CreateSession] differ, whatever calls
    of [CreateSession] come between the two, accepted or refused: each id
    is the decimal text of a number, and the later number is the
    greater. *)
Theorem CreateSession_ids_increase st now req st1 r1 calls now' req' st2 r2 :
  CreateSession timestamp_in st now req = (st1, Ok r1) ->
  CreateSession timestamp_in (create_all timestamp_in st1 calls) now' req'
  = (st2, Ok r2) ->
  pb.Session.Id r1 <> pb.Session.Id r2
  /\ exists n1 n2,
       pb.Session.Id r1 = Sprint n1 /\ pb.Session.Id r2 = Sprint n2
       /\ n1 < n2.
Proof.
  intros H1 H2.
  apply CreateSession_Ok in H1. destruct H1 as (_ & row1 & I1 & ->).
  apply CreateSession_Ok in H2. destruct H2 as (_ & row2 & I2 & ->).
  apply insert_session_stored in I1. destruct I1 as (E1 & Hid1 & _).
  apply insert_session_stored in I2. destruct I2 as (_ & Hid2 & _).
  pose proof (create_all_sequence calls st1) as Hseq.
  assert (Hst1 : sessions_id_seq st1 = sessions_id_seq st + 1)
    by (rewrite E1; reflexivity).
  assert (Hlt : s_id row1 < s_id row2) by lia.
  simpl. split.
  - intros E. apply Sprint_injective in E. lia.
  - exists (s_id row1), (s_id row2). auto.
Qed.

(** X5: what the gateway's POST route answers for [CreateSession] is 201
    with one more session stored, or 500 with the sessions as they were;
    the error behind a 500 is InvalidArgument or Internal, so that a
    request without a required field is answered like a failure of the
    store. *)
Theorem CreateSession_status st now req :
  let out := CreateSession timestamp_in st now req in
  (gateway.reply 201 (snd out) = 201
   /\ exists row, sessions (fst out) = row :: sessions st)
  \/ (gateway.reply 201 (snd out) = 500
      /\ sessions (fst out) = sessions st
      /\ (snd out = Err codes.InvalidArgument \/ snd out = Err codes.Internal)).
Proof.
  intros out. subst out.
  destruct (CreateSession_ends st now req)
    as [(r & row & -> & H & _)|(H & [->| ->])].
  - left. split; [reflexivity|]. exists row. exact H.
  - right. split; [reflexivity|]. auto.
  - right. split; [reflexivity|]. auto.
Qed.

Lemma varchar_nonempty (n : nat) (s s' : string) :
  (1 <= n)%nat -> varchar n s = Some s' -> s <> "" -> s' <> "".
Proof.
  intros Hn. unfold varchar.
  destruct (char_length s <=? n)%nat; [congruence|].
  destruct (all_spaces _); [|discriminate].
  intros E Hs. inversion E; subst; clear E.
  destruct s as [|c r]; [congruence|]. simpl.
  destruct (utf8_continuation c); [discriminate|].
  destruct n; [lia | discriminate].
Qed.

Lemma CreateSession_well_formed st now req :
  (forall s, In s (sessions st) -> well_formed s) ->
  forall s, In s (sessions (fst (CreateSession timestamp_in st now req))) ->
            well_formed s.
Proof.
  intros W s.
  destruct (CreateSession timestamp_in st now req) as [st' [reply|c]] eqn:E;
    simpl.
  - apply CreateSession_Ok in E.
    destruct E as ([(Vt & Vc & _ & _ & Vl & Vy & Vv) Vcap] & row & I & _).
    pose proof I as I'. apply insert_session_columns in I'.
    destruct I' as (Ht & _ & Hc & _ & _ & Hl & Hy & Hv & Hmax).
    apply insert_session_stored in I.
    destruct I as (-> & _ & Hres & Hcan & Hcap & _ & _ & Hn).
    change (varchar 255 "Coach Name") with (Some "Coach Name") in Hn.
    simpl. intros [<-|Hs]; [|now apply W].
    unfold well_formed. rewrite Hcap, Hres, Hcan.
    repeat split; try lia; try congruence;
      try (eapply varchar_length; eassumption);
      try (eapply varchar_nonempty; [|eassumption|assumption]; lia).
  - assert (Hs : sessions st' = sessions st).
    { pose proof (CreateSession_ends st now req) as H. rewrite E in H.
      simpl in H. destruct H as [(r & _ & H & _)|[H _]];
        [discriminate | exact H]. }
    rewrite Hs. apply W.
Qed.

(** X6: whatever is sent to [CreateSession], from the empty tables on, no
    reservation appears and every stored session has a capacity between 1
    and the greatest [INT], no place taken, is not cancelled, has the
    coach's name "Coach Name", and has a title, coach id, location, type
    and level that are not empty and fit their columns. *)
Theorem created_sessions_well_formed calls :
  reservations (create_all timestamp_in empty_store calls) = []
  /\ forall s, In s (sessions (create_all timestamp_in empty_store calls)) ->
               well_formed s.
Proof.
  assert (G : forall st,
            reservations st = [] ->
            (forall s, In s (sessions st) -> well_formed s) ->
            reservations (create_all timestamp_in st calls) = []
            /\ forall s, In s (sessions (create_all timestamp_in st calls)) ->
                         well_formed s).
  { induction calls as [|[now req] calls IH]; simpl; intros st R W; [auto|].
    apply IH.
    - now rewrite (proj1 (CreateSession_reservations timestamp_in st now req)).
    - now apply CreateSession_well_formed. }
  apply G; [reflexivity|]. intros s [].
Qed.

End SessionsRead.

(** ** On the documented request *)

Lemma yoga_created :
  CreateSession iso8601_in empty_store example.noon example.yoga
  = (example.one_session,
     Ok (created_reply empty_store example.noon example.yoga)).
Proof. vm_compute. reflexivity. Defined.

Lemma one_session_consistent : consistent example.one_session.
Proof.
  apply (CreateSession_consistent iso8601_in empty_store example.noon
           example.yoga empty_consistent).
Defined.


(** With the yoga session stored: "1" is found, "2" is not, "one" is no
    number. *)
Lemma GetSession_status_witness :
  gateway.reply 200 (GetSession decimal_in example.one_session "1") = 200
  /\ gateway.reply 200 (GetSession decimal_in example.one_session "2") = 404
  /\ gateway.reply 200 (GetSession decimal_in example.one_session "one")
     = 500.
Proof.
  split; [|split].
  - assert (E : exists got,
              GetSession decimal_in example.one_session "1" = Ok got)
      by (eexists; vm_compute; reflexivity).
    destruct E as [got E].
    exact (proj1 (proj1 (GetSession_status decimal_in example.one_session "1")
                    got E)).
  - apply (proj1 (proj2 (GetSession_status decimal_in example.one_session
                           "2")) 2); [reflexivity | reflexivity |].
    intros s [<-|[]]. vm_compute. discriminate.
  - apply (proj2 (proj2 (GetSession_status decimal_in example.one_session
                           "one"))).
    reflexivity.
Defined.

(** The yoga session is read as before once a second session has been
    created. *)
Lemma CreateSession_keeps_sessions_witness :
  exists got,
    GetSession decimal_in example.one_session "1" = Ok got
    /\ GetSession decimal_in
         (fst (CreateSession iso8601_in example.one_session example.noon
                 example.solo)) "1" = Ok got.
Proof.
  assert (E : exists got,
            GetSession decimal_in example.one_session "1" = Ok got)
    by (eexists; vm_compute; reflexivity).
  destruct E as [got E]. exists got. split; [exact E|].
  exact (proj2 (proj2 (CreateSession_keeps_sessions iso8601_in decimal_in
                         example.one_session example.noon example.solo))
           one_session_consistent "1" got E).
Defined.

(** The yoga session, a refused request, and the session for one person:
    the two ids differ. *)
Lemma CreateSession_ids_increase_witness :
  pb.Session.Id (created_reply empty_store example.noon example.yoga)
  <> pb.Session.Id
       (created_reply
          (create_all iso8601_in example.one_session
             [(example.noon, example.with_title "" example.yoga)])
          example.noon example.solo).
Proof.
  refine (proj1 (CreateSession_ids_increase iso8601_in empty_store
                   example.noon example.yoga example.one_session
                   (created_reply empty_store example.noon example.yoga)
                   [(example.noon, example.with_title "" example.yoga)]
                   example.noon example.solo
                   (fst (CreateSession iso8601_in
                           (create_all iso8601_in example.one_session
                              [(example.noon,
                                example.with_title "" example.yoga)])
                           example.noon example.solo))
                   _ yoga_created _)).
  vm_compute. reflexivity.
Defined.

(** Of three calls, one of them refused, the first session is well
    formed. *)
Lemma created_sessions_well_formed_witness :
  well_formed (created_row empty_store example.noon example.yoga
                 example.eight example.nine).
Proof.
  apply (proj2 (created_sessions_well_formed iso8601_in sample.three_calls)).
  vm_compute. right. left. reflexivity.
Defined.

(* ===================================================================== *)
(** * The gateway's routes *)
(* ===================================================================== *)

Section Routes.

Import express.


(** The routes that the router reaches, by method and number of segments. *)
Lemma dispatch_router user segments req :
  dispatch router user segments req
  = match method req, segments with
    | GET, [] => Call sessionClient.ListSessions []
    | GET, [id] => Call sessionClient.GetSession [("session_id", id)]
    | POST, [] => Call sessionClient.CreateSession []
    | PUT, [id] => Call sessionClient.UpdateSession [("session_id", id)]
    | DELETE, [id] => Call sessionClient.DeleteSession [("session_id", id)]
    | GET, [a; x] =>
        if String.eqb "user" (lowercase a) then
          listUserReservations [x] user req
        else if String.eqb "session" (lowercase a) then
          Call sessionClient.ListSessionReservations [("session_id", x)]
        else Next
    | _, _ => Next
    end.
Proof.
  destruct (method req) eqn:M; destruct segments as [|a [|x [|y r]]];
    cbv beta iota delta [router dispatch matches method_eqb option_map
                         first_param listSessions getSession createSession
                         updateSession deleteSession getReservation
                         listSessionReservations];
    rewrite ?M; try reflexivity;
    change (lowercase "user") with "user";
    change (lowercase "session") with "session";
    destruct (String.eqb "user" (lowercase a)); try reflexivity;
    destruct (String.eqb "session" (lowercase a)); reflexivity.
Qed.

Lemma app_sessions jwt_verify req a b rest :
  path req = a :: b :: rest ->
  lowercase a = "api" -> lowercase b = "sessions" ->
  app jwt_verify req = finish (dispatch router None rest req).
Proof. intros P A B. unfold app. rewrite P, A, B. reflexivity. Qed.

Lemma app_reservations jwt_verify req a b rest :
  path req = a :: b :: rest ->
  lowercase a = "api" -> lowercase b = "reservations" ->
  app jwt_verify req
  = match verifyToken jwt_verify req with
    | inl status => Http status
    | inr decoded => finish (dispatch router (Some decoded) rest req)
    end.
Proof. intros P A B. unfold app. rewrite P, A, B. reflexivity. Qed.


(** X8: under /api/sessions no token is asked for: the answer is the same
    whatever the Authorization header and whatever the verifier, so that a
    request without any credential reaches CreateSession by POST, and
    UpdateSession and DeleteSession by PUT and DELETE of an id; GET of
    user/<id> there runs the handler of a user's reservations without a
    user and is answered with 500. *)
Theorem session_routes_need_no_token jwt_verify jwt_verify' header req
    a b rest :
  path req = a :: b :: rest ->
  lowercase a = "api" -> lowercase b = "sessions" ->
  app jwt_verify req = app jwt_verify' (with_authorization header req)
  /\ (method req = POST -> rest = [] ->
      app jwt_verify req = Rpc sessionClient.CreateSession [])
  /\ (forall id, method req = PUT -> rest = [id] ->
      app jwt_verify req
      = Rpc sessionClient.UpdateSession [("session_id", id)])
  /\ (forall id, method req = DELETE -> rest = [id] ->
      app jwt_verify req
      = Rpc sessionClient.DeleteSession [("session_id", id)])
  /\ (forall u x, method req = GET -> rest = [u; x] ->
      lowercase u = "user" -> app jwt_verify req = Http 500).
Proof.
  intros P A B.
  rewrite (app_sessions jwt_verify req a b rest P A B).
  rewrite (app_sessions jwt_verify' (with_authorization header req) a b rest
             P A B).
  rewrite !dispatch_router.
  split; [reflexivity|].
  split; [intros -> ->; reflexivity|].
  split; [intros id -> ->; reflexivity|].
  split; [intros id -> ->; reflexivity|].
  intros u x -> -> U. rewrite U. reflexivity.
Qed.

Lemma remove_first_eq (pattern s : string) :
  remove_first pattern s
  = if String.prefix pattern s then
      String.substring (String.length pattern)
        (String.length s - String.length pattern) s
    else match s with
         | EmptyString => EmptyString
         | String c r => String c (remove_first pattern r)
         end.
Proof. destruct s; reflexivity. Qed.

Lemma prefix_append (p s : string) : String.prefix p (p ++ s) = true.
Proof.
  induction p as [|c p IH]; simpl; [now destruct s|].
  destruct (ascii_dec c c); [exact IH | contradiction].
Qed.

Lemma substring_all (s : string) :
  String.substring 0 (String.length s) s = s.
Proof. induction s as [|c s IH]; simpl; [reflexivity | now rewrite IH]. Qed.

Lemma remove_first_append (p s : string) : remove_first p (p ++ s) = s.
Proof.
  rewrite remove_first_eq, prefix_append.
  induction p as [|c p IH]; simpl.
  - rewrite Nat.sub_0_r. apply substring_all.
  - exact IH.
Qed.

(** X9: [verifyToken] answers 401 to a request without an Authorization
    header; of a header "Bearer " followed by a token it answers 401 when
    the token is empty or does not verify, and else lets the request pass
    as the user of the token.  A request that passes has a header whose
    text without its first "Bearer " is not empty and verifies, and every
    call that the gateway makes for a request under /api/reservations is
    for a request that has passed. *)
Theorem verifyToken_admits jwt_verify req :
  (authorization req = None -> verifyToken jwt_verify req = inl 401)
  /\ (forall token,
        authorization req = Some ("Bearer " ++ token) ->
        verifyToken jwt_verify req
        = if String.eqb token "" then inl 401
          else match jwt_verify token with
               | Some decoded => inr decoded
               | None => inl 401
               end)
  /\ (forall decoded,
        verifyToken jwt_verify req = inr decoded ->
        exists header,
          authorization req = Some header
          /\ remove_first "Bearer " header <> ""
          /\ jwt_verify (remove_first "Bearer " header) = Some decoded)
  /\ (forall a b rest rpc fields,
        path req = a :: b :: rest ->
        lowercase a = "api" -> lowercase b = "reservations" ->
        app jwt_verify req = Rpc rpc fields ->
        exists decoded, verifyToken jwt_verify req = inr decoded).
Proof.
  unfold verifyToken. split; [|split; [|split]].
  - intros ->. reflexivity.
  - intros token ->. cbn [option_map].
    change ("Bearer " ++ token)%string with (append "Bearer " token).
    now rewrite remove_first_append.
  - intros decoded. destruct (authorization req) as [h|]; [|discriminate].
    cbn [option_map].
    destruct (String.eqb_spec (remove_first "Bearer " h) "") as [E|N];
      [discriminate|].
    destruct (jwt_verify _) as [d|] eqn:V; [|discriminate].
    intros E. inversion E; subst. exists h. auto.
  - intros a b rest rpc fields P A B.
    rewrite (app_reservations _ _ _ _ _ P A B). unfold verifyToken.
    destruct (option_map _ _) as [t|]; [|discriminate].
    destruct (String.eqb t ""); [discriminate|].
    destruct (jwt_verify t) as [d|]; [eauto | discriminate].
Qed.

(** X10: GET /api/reservations/user/<id> with a token that verifies calls
    ListUserReservations for <id> when the token is of that user or of an
    administrator, and is answered with 403 otherwise. *)
Theorem listUserReservations_guard jwt_verify req a b u x decoded :
  path req = [a; b; u; x] ->
  lowercase a = "api" -> lowercase b = "reservations" ->
  lowercase u = "user" -> method req = GET ->
  verifyToken jwt_verify req = inr decoded ->
  (subject decoded = x \/ role decoded = "admin" ->
   app jwt_verify req = Rpc sessionClient.ListUserReservations [("user_id", x)])
  /\ (subject decoded <> x -> role decoded <> "admin" ->
      app jwt_verify req = Http 403).
Proof.
  intros P A B U M V.
  rewrite (app_reservations _ _ _ _ _ P A B), V, dispatch_router, M, U.
  cbn [String.eqb]. change (String.eqb "user" "user") with true.
  cbv beta iota. unfold listUserReservations, first_param.
  destruct (String.eqb_spec (subject decoded) x) as [E|N];
    destruct (String.eqb_spec (role decoded) "admin") as [E'|N'];
    cbn [negb andb finish]; split; try reflexivity; intros;
    try contradiction; intuition.
Qed.

End Routes.

(** ** On concrete requests *)


(** DELETE /api/sessions/1 without a header deletes the session 1. *)
Lemma session_routes_need_no_token_witness :
  express.app sample.jwt_verify
    (sample.request express.DELETE ["api"; "sessions"; "1"] None)
  = express.Rpc sessionClient.DeleteSession [("session_id", "1")].
Proof.
  exact (proj1 (proj2 (proj2 (proj2
           (session_routes_need_no_token sample.jwt_verify sample.jwt_verify
              None
              (sample.request express.DELETE ["api"; "sessions"; "1"] None)
              "api" "sessions" ["1"] eq_refl eq_refl eq_refl))))
           "1" eq_refl eq_refl).
Defined.

(** No header: 401; the token of alice: alice. *)
Lemma verifyToken_admits_witness :
  express.verifyToken sample.jwt_verify
    (sample.request express.GET ["api"; "reservations"; "user"; "alice"]
       None) = inl 401
  /\ express.verifyToken sample.jwt_verify
       (sample.request express.GET ["api"; "reservations"; "user"; "alice"]
          sample.as_alice) = inr example.alice.
Proof.
  split.
  - exact (proj1 (verifyToken_admits sample.jwt_verify
                    (sample.request express.GET
                       ["api"; "reservations"; "user"; "alice"] None))
             eq_refl).
  - exact (proj1 (proj2 (verifyToken_admits sample.jwt_verify
                           (sample.request express.GET
                              ["api"; "reservations"; "user"; "alice"]
                              sample.as_alice)))
             "alice-token" eq_refl).
Defined.

(** alice may list her reservations and not those of bob. *)
Lemma listUserReservations_guard_witness :
  express.app sample.jwt_verify
    (sample.request express.GET ["api"; "reservations"; "user"; "alice"]
       sample.as_alice)
  = express.Rpc sessionClient.ListUserReservations [("user_id", "alice")]
  /\ express.app sample.jwt_verify
       (sample.request express.GET ["api"; "reservations"; "user"; "bob"]
          sample.as_alice)
     = express.Http 403.
Proof.
  split.
  - apply (proj1 (listUserReservations_guard sample.jwt_verify
                    (sample.request express.GET
                       ["api"; "reservations"; "user"; "alice"]
                       sample.as_alice)
                    "api" "reservations" "user" "alice" example.alice
                    eq_refl eq_refl eq_refl eq_refl eq_refl eq_refl)).
    left. reflexivity.
  - apply (proj2 (listUserReservations_guard sample.jwt_verify
                    (sample.request express.GET
                       ["api"; "reservations"; "user"; "bob"]
                       sample.as_alice)
                    "api" "reservations" "user" "bob" example.alice
                    eq_refl eq_refl eq_refl eq_refl eq_refl eq_refl));
      discriminate.
Defined.

(* ===================================================================== *)
(** * [formatTimestamp] and the reading of timestamps *)
(* ===================================================================== *)

Lemma all_from_spec (f : Z -> bool) (n : nat) : forall i,
  all_from n i f = true ->
  forall j, i <= j < i + Z.of_nat n -> f j = true.
Proof.
  induction n as [|n IH]; simpl all_from; intros i H j Hj; [lia|].
  apply andb_prop in H. destruct H as [Hi Hrest].
  destruct (Z.eq_dec j i) as [->|N]; [exact Hi|].
  apply (IH (i + 1) Hrest). lia.
Qed.

(** The numbers of two and of four digits, one by one. *)
Lemma two_digits_all : all_from 100 0 two_digits = true.
Proof. vm_compute. reflexivity. Qed.

Lemma four_digits_all : all_from (Z.to_nat 10000) 0 four_digits = true.
Proof. vm_compute. reflexivity. Qed.

(** The year of the era and the day of the year of a day of the era; the
    year starts in March, so that its day 365 is a 29th of February. *)
Lemma year_of_era (doe : Z) :
  0 <= doe < 146097 ->
  let yoe := (doe - doe / 1460 + doe / 36524 - doe / 146096) / 365 in
  let doy := doe - (365 * yoe + yoe / 4 - yoe / 100) in
  0 <= yoe <= 399 /\ 0 <= doy <= 365
  /\ (doy = 365 ->
      (yoe + 1) mod 4 = 0
      /\ ((yoe + 1) mod 100 <> 0 \/ (yoe + 1) mod 400 = 0)).
Proof.
  intros R yoe doy. subst doy yoe.
  Z.div_mod_to_equations. lia.
Qed.

Lemma leap_year_true (y : Z) :
  y mod 4 = 0 -> (y mod 100 <> 0 \/ y mod 400 = 0) -> leap_year y = true.
Proof.
  intros H4 H. unfold leap_year. rewrite H4. simpl.
  destruct H as [H|H].
  - apply Z.eqb_neq in H. rewrite H. reflexivity.
  - rewrite H. apply orb_true_r.
Qed.

Lemma leap_year_cycle (y e : Z) : leap_year (y + e * 400) = leap_year y.
Proof.
  unfold leap_year.
  replace (y + e * 400) with (y + (100 * e) * 4) at 1 by lia.
  replace (y + e * 400) with (y + (4 * e) * 100) at 1 by lia.
  now rewrite !Z_mod_plus_full.
Qed.

(** The comparisons of two numerals of the goal, decided. *)
Ltac literals :=
  repeat match goal with
         | |- context [Z.leb (Zpos ?a) (Zpos ?b)] =>
             let v := eval compute in (Z.leb (Zpos a) (Zpos b)) in
             change (Z.leb (Zpos a) (Zpos b)) with v
         | |- context [Z.ltb (Zpos ?a) (Zpos ?b)] =>
             let v := eval compute in (Z.ltb (Zpos a) (Zpos b)) in
             change (Z.ltb (Zpos a) (Zpos b)) with v
         | |- context [Z.eqb (Zpos ?a) (Zpos ?b)] =>
             let v := eval compute in (Z.eqb (Zpos a) (Zpos b)) in
             change (Z.eqb (Zpos a) (Zpos b)) with v
         end;
  cbv beta iota delta [orb].

(** The date of a day is a date of the calendar, and the day of that
    date. *)
Lemma civil_date (days : Z) :
  exists y m d,
    civil_from_days days = (y, m, d)
    /\ 1 <= m <= 12 /\ 1 <= d <= days_in_month y m
    /\ days_from_civil y m d = days.
Proof.
  unfold civil_from_days. cbv zeta.
  remember (days + 719468) as z eqn:Ez.
  remember (z / 146097) as era eqn:Eera.
  remember (z - era * 146097) as doe eqn:Edoe.
  assert (R : 0 <= doe < 146097)
    by (subst doe era; Z.div_mod_to_equations; lia).
  pose proof (year_of_era doe R) as Y. cbv zeta in Y.
  remember ((doe - doe / 1460 + doe / 36524 - doe / 146096) / 365)
    as yoe eqn:Eyoe.
  remember (doe - (365 * yoe + yoe / 4 - yoe / 100)) as doy eqn:Edoy.
  destruct Y as (Ry & Rd & Leap).
  assert (L : doy = 365 -> leap_year (yoe + era * 400 + 1) = true).
  { intros E. destruct (Leap E) as [L4 L100].
    replace (yoe + era * 400 + 1) with (yoe + 1 + era * 400) by lia.
    rewrite leap_year_cycle. now apply leap_year_true. }
  remember ((5 * doy + 2) / 153) as mp eqn:Emp.
  assert (Rmp : 0 <= mp <= 11) by (subst mp; Z.div_mod_to_equations; lia).
  assert (Era : (yoe + era * 400) / 400 = era)
    by (Z.div_mod_to_equations; lia).
  remember (if mp <? 10 then mp + 3 else mp - 9) as m eqn:Em.
  eexists. eexists. eexists. split; [reflexivity|].
  assert (Cases : mp = 0 \/ mp = 1 \/ mp = 2 \/ mp = 3 \/ mp = 4 \/ mp = 5
                  \/ mp = 6 \/ mp = 7 \/ mp = 8 \/ mp = 9 \/ mp = 10
                  \/ mp = 11) by lia.
  clear Leap Eyoe Eera R.
  unfold days_from_civil, days_in_month.
  repeat (destruct Cases as [C|Cases]).
  all: try rename Cases into C.
  all: rewrite C in Em; simpl in Em; subst m; literals.
  all: try (replace (yoe + era * 400 + 1 - 1) with (yoe + era * 400) by lia);
    rewrite Era.
  all: try (destruct (leap_year (yoe + era * 400 + 1)) eqn:LY;
            [|assert (doy <> 365)
                by (intros E; specialize (L E); congruence)]).
  all: clear L; Z.div_mod_to_equations; lia.
Qed.

(** The days before the year 1 and after the year 9999. *)
Lemma days_from_civil_year (y m d : Z) :
  1 <= m <= 12 -> 1 <= d <= 31 ->
  (y <= 0 -> days_from_civil y m d < -719162)
  /\ (10000 <= y -> 2932896 < days_from_civil y m d).
Proof.
  intros Hm Hd. unfold days_from_civil.
  destruct (Z.leb_spec m 2); destruct (Z.ltb_spec 2 m); try lia;
    cbv zeta; split; intros Hy; Z.div_mod_to_equations; lia.
Qed.

Lemma pad_two (n : Z) : 0 <= n < 100 ->
  exists a b, pad 2 n = String a (String b "")
              /\ number_of [a; b] 0 = Some n.
Proof.
  intros R.
  pose proof (all_from_spec two_digits _ 0 two_digits_all n ltac:(lia)) as H.
  unfold two_digits in H.
  destruct (pad 2 n) as [|a [|b [|]]]; try discriminate.
  exists a, b. split; [reflexivity|].
  destruct (number_of [a; b] 0); [|discriminate].
  apply Z.eqb_eq in H. now subst.
Qed.

Lemma pad_four (n : Z) : 0 <= n < 10000 ->
  exists a b c d, pad 4 n = String a (String b (String c (String d "")))
                  /\ number_of [a; b; c; d] 0 = Some n.
Proof.
  intros R.
  pose proof (all_from_spec four_digits _ 0 four_digits_all n) as H.
  rewrite Z2Nat.id in H by lia. specialize (H ltac:(lia)).
  unfold four_digits in H.
  destruct (pad 4 n) as [|a [|b [|c [|d [|]]]]]; try discriminate.
  exists a, b, c, d. split; [reflexivity|].
  destruct (number_of [a; b; c; d] 0); [|discriminate].
  apply Z.eqb_eq in H. now subst.
Qed.

(** X11: the text that [formatTimestamp] makes of a time from 0001-01-01
    00:00:00 to the end of 9999-12-31 has 20 characters, and [iso8601_in]
    reads it as the same time without its fraction of a second, whatever
    the time of the reading: the start that [GetSession] replies with can
    be sent back to [CreateSession] as it is. *)
Theorem formatTimestamp_read_back (now t : Z) :
  -62135596800 * usec_per_sec <= t < 253402300800 * usec_per_sec ->
  String.length (formatTimestamp t) = 20%nat
  /\ iso8601_in now (formatTimestamp t)
     = Some (t / usec_per_sec * usec_per_sec).
Proof.
  intros Rt. unfold formatTimestamp.
  set (secs := t / usec_per_sec).
  assert (Rsecs : -62135596800 <= secs < 253402300800).
  { subst secs. unfold usec_per_sec in *. Z.div_mod_to_equations. lia. }
  assert (Rdays : -719162 <= secs / sec_per_day <= 2932896).
  { unfold sec_per_day. Z.div_mod_to_equations. lia. }
  destruct (civil_date (secs / sec_per_day))
    as (y & m & d & E & Hm & Hd & Hinv).
  rewrite E.
  set (sod := secs mod sec_per_day).
  assert (Rs : 0 <= sod < 86400) by (apply Z.mod_pos_bound; reflexivity).
  assert (Dm : d <= 31).
  { unfold days_in_month in Hd.
    destruct (m =? 2); [destruct (leap_year y)|
      destruct ((m =? 4) || (m =? 6) || (m =? 9) || (m =? 11))]; lia. }
  assert (Hy : 1 <= y <= 9999).
  { destruct (days_from_civil_year y m d Hm ltac:(lia)) as [Lo Hi]. lia. }
  assert (Rh : 0 <= sod / 3600 < 24)
    by (split; [apply Z.div_pos; lia | apply Z.div_lt_upper_bound; lia]).
  assert (Rm : 0 <= sod mod 3600 / 60 < 60).
  { pose proof (Z.mod_pos_bound sod 3600 ltac:(lia)).
    split; [apply Z.div_pos; lia | apply Z.div_lt_upper_bound; lia]. }
  assert (Rc : 0 <= sod mod 60 < 60) by (apply Z.mod_pos_bound; lia).
  destruct (pad_four y ltac:(lia)) as (y1 & y2 & y3 & y4 & -> & Ny).
  destruct (pad_two m ltac:(lia)) as (m1 & m2 & -> & Nm).
  destruct (pad_two d ltac:(lia)) as (d1 & d2 & -> & Nd).
  destruct (pad_two (sod / 3600) ltac:(lia)) as (h1 & h2 & -> & Nh).
  destruct (pad_two (sod mod 3600 / 60) ltac:(lia)) as (n1 & n2 & -> & Nn).
  destruct (pad_two (sod mod 60) ltac:(lia)) as (s1 & s2 & -> & Ns).
  split; [reflexivity|].
  unfold iso8601_in.
  cbn [append list_ascii_of_string].
  rewrite Ny, Nm, Nd, Nh, Nn, Ns.
  change (Ascii.eqb "T" "T" || Ascii.eqb "T" " ") with true.
  cbn [andb].
  unfold civil_time.
  replace ((1 <=? y) && (1 <=? m) && (m <=? 12) && (1 <=? d)
           && (d <=? days_in_month y m) && (sod / 3600 <=? 23)
           && (sod mod 3600 / 60 <=? 59) && (sod mod 60 <=? 59)) with true.
  2:{ symmetry. repeat (apply andb_true_intro; split); apply Z.leb_le; lia. }
  rewrite Hinv. f_equal. f_equal.
  unfold sec_per_day in *.
  assert (secs = 86400 * (secs / 86400) + sod) by (apply Z.div_mod; lia).
  assert (sod = 3600 * (sod / 3600) + sod mod 3600) by (apply Z.div_mod; lia).
  assert (sod mod 3600 = 60 * (sod mod 3600 / 60) + (sod mod 3600) mod 60)
    by (apply Z.div_mod; lia).
  assert ((sod mod 3600) mod 60 = sod mod 60).
  { rewrite (Z.mod_eq sod 3600) by lia.
    replace (sod - 3600 * (sod / 3600))
      with (sod + (- 60 * (sod / 3600)) * 60) by lia.
    apply Z_mod_plus_full. }
  lia.
Qed.

(** 2025-05-15 08:00:00.123456 is written as 2025-05-15T08:00:00Z and read
    as 08:00:00. *)
Lemma formatTimestamp_read_back_witness :
  formatTimestamp sample.eight_and_a_bit = "2025-05-15T08:00:00Z"
  /\ iso8601_in example.noon (formatTimestamp sample.eight_and_a_bit)
     = Some example.eight.
Proof.
  split; [vm_compute; reflexivity|].
  rewrite (proj2 (formatTimestamp_read_back example.noon
                    sample.eight_and_a_bit
                    ltac:(unfold sample.eight_and_a_bit, example.eight,
                             usec_per_sec; lia))).
  vm_compute. reflexivity.
Defined.
